(** * Library Manager: the catalog, its queries and its JSON store

    A shallow embedding of [library_manager.py]: the book records, the
    catalog held in the session state, the views that add, remove, search,
    sort and summarise it, and the load/save pair that keeps it in
    [library.json].  Python values are modelled as follows.

    - [str] is a sequence of Unicode code points ([text], a list of [N]).
    - [int] is [Z]; [bool] is [bool].
    - a book (the dict built in [add_book_view]) is the record [Book].
    - what [json.load] returns is a [json] value.
    - an exception is a [Raise] result; [try ... except Exception] is
      [try_except].
    - the widgets of a view are the arguments of the function that models
      the view; what the view shows is the list of [notice]s it returns.

    Left out of the model: the value of a float (a float read from the
    file is kept as its literal, and the share of books read is a
    rational); the interpreter's limits on the depth of recursion and on
    the number of digits of an integer, so that [loads] decodes documents
    that the interpreter refuses; and the drawing of the page, which in
    the program can fail on text that cannot be encoded for the browser
    (a lone surrogate read from the file): the views are modelled as
    they run on a catalog of books whose page can be drawn. *)

From Stdlib Require Import ZArith NArith List String Ascii Bool Lia.
From Stdlib Require Import DecimalFacts DecimalPos DecimalN DecimalZ.
From Stdlib Require Import QArith.
From Stdlib Require Import Sorting.Sorted Sorting.Permutation.
From stdpp Require Import gmap strings list fin_maps.
Import ListNotations.

Set Warnings "-register-all".

Close Scope Q_scope.
Local Open Scope N_scope.
Local Open Scope list_scope.

(** ** Text: Python [str] as code points *)

Module Text.

Abbreviation text := (list N).

(** The code points of an ASCII literal. *)
Definition str (s : string) : text :=
  List.map N_of_ascii (list_ascii_of_string s).

(** [str.isspace] on one code point: the characters that [str.strip]
    removes. *)
Definition isspace (c : N) : bool :=
  ((9 <=? c) && (c <=? 13)) || ((28 <=? c) && (c <=? 32))
  || (c =? 133) || (c =? 160) || (c =? 5760)
  || ((8192 <=? c) && (c <=? 8202))
  || (c =? 8232) || (c =? 8233) || (c =? 8239) || (c =? 8287)
  || (c =? 12288).

Fixpoint lstrip (s : text) : text :=
  match s with
  | c :: s' => if isspace c then lstrip s' else s
  | [] => []
  end.

Definition rstrip (s : text) : text := rev (lstrip (rev s)).

(** [s.strip()] *)
Definition strip (s : text) : text := rstrip (lstrip s).

(** *** [str.lower]

    CPython lower-cases a string one code point at a time
    ([do_lower] and [lower_ucs4] in [unicodeobject.c]).  A code point
    becomes its lower-case form of the Unicode character database
    (version 14.0, the one of CPython 3.11), with two special cases: the
    capital I with a dot above, U+0130, becomes two code points, and the
    capital sigma, U+03A3, becomes the final small sigma at the end of a
    word and the plain small sigma elsewhere. *)

(** The simple lower-case forms.  A row [(first, last, step, image)]
    says that the code points [first], [first + step], ... up to [last]
    have the lower-case forms [image], [image + step], ...; the rows are
    in the order of the code points, and a code point in no row is its
    own lower-case form. *)
Definition lower_table : list (N * N * N * N) :=
  [(65, 90, 1, 97); (192, 214, 1, 224); (216, 222, 1, 248); (256, 302, 2, 257);
   (306, 310, 2, 307); (313, 327, 2, 314); (330, 374, 2, 331); (376, 376, 1, 255);
   (377, 381, 2, 378); (385, 385, 1, 595); (386, 388, 2, 387); (390, 390, 1, 596);
   (391, 391, 1, 392); (393, 394, 1, 598); (395, 395, 1, 396); (398, 398, 1, 477);
   (399, 399, 1, 601); (400, 400, 1, 603); (401, 401, 1, 402); (403, 403, 1, 608);
   (404, 404, 1, 611); (406, 406, 1, 617); (407, 407, 1, 616); (408, 408, 1, 409);
   (412, 412, 1, 623); (413, 413, 1, 626); (415, 415, 1, 629); (416, 420, 2, 417);
   (422, 422, 1, 640); (423, 423, 1, 424); (425, 425, 1, 643); (428, 428, 1, 429);
   (430, 430, 1, 648); (431, 431, 1, 432); (433, 434, 1, 650); (435, 437, 2, 436);
   (439, 439, 1, 658); (440, 440, 1, 441); (444, 444, 1, 445); (452, 452, 1, 454);
   (453, 453, 1, 454); (455, 455, 1, 457); (456, 456, 1, 457); (458, 458, 1, 460);
   (459, 475, 2, 460); (478, 494, 2, 479); (497, 497, 1, 499); (498, 500, 2, 499);
   (502, 502, 1, 405); (503, 503, 1, 447); (504, 542, 2, 505); (544, 544, 1, 414);
   (546, 562, 2, 547); (570, 570, 1, 11365); (571, 571, 1, 572); (573, 573, 1, 410);
   (574, 574, 1, 11366); (577, 577, 1, 578); (579, 579, 1, 384); (580, 580, 1, 649);
   (581, 581, 1, 652); (582, 590, 2, 583); (880, 882, 2, 881); (886, 886, 1, 887);
   (895, 895, 1, 1011); (902, 902, 1, 940); (904, 906, 1, 941); (908, 908, 1, 972);
   (910, 911, 1, 973); (913, 929, 1, 945); (931, 939, 1, 963); (975, 975, 1, 983);
   (984, 1006, 2, 985); (1012, 1012, 1, 952); (1015, 1015, 1, 1016); (1017, 1017, 1, 1010);
   (1018, 1018, 1, 1019); (1021, 1023, 1, 891); (1024, 1039, 1, 1104); (1040, 1071, 1, 1072);
   (1120, 1152, 2, 1121); (1162, 1214, 2, 1163); (1216, 1216, 1, 1231); (1217, 1229, 2, 1218);
   (1232, 1326, 2, 1233); (1329, 1366, 1, 1377); (4256, 4293, 1, 11520); (4295, 4295, 1, 11559);
   (4301, 4301, 1, 11565); (5024, 5103, 1, 43888); (5104, 5109, 1, 5112); (7312, 7354, 1, 4304);
   (7357, 7359, 1, 4349); (7680, 7828, 2, 7681); (7838, 7838, 1, 223); (7840, 7934, 2, 7841);
   (7944, 7951, 1, 7936); (7960, 7965, 1, 7952); (7976, 7983, 1, 7968); (7992, 7999, 1, 7984);
   (8008, 8013, 1, 8000); (8025, 8031, 2, 8017); (8040, 8047, 1, 8032); (8072, 8079, 1, 8064);
   (8088, 8095, 1, 8080); (8104, 8111, 1, 8096); (8120, 8121, 1, 8112); (8122, 8123, 1, 8048);
   (8124, 8124, 1, 8115); (8136, 8139, 1, 8050); (8140, 8140, 1, 8131); (8152, 8153, 1, 8144);
   (8154, 8155, 1, 8054); (8168, 8169, 1, 8160); (8170, 8171, 1, 8058); (8172, 8172, 1, 8165);
   (8184, 8185, 1, 8056); (8186, 8187, 1, 8060); (8188, 8188, 1, 8179); (8486, 8486, 1, 969);
   (8490, 8490, 1, 107); (8491, 8491, 1, 229); (8498, 8498, 1, 8526); (8544, 8559, 1, 8560);
   (8579, 8579, 1, 8580); (9398, 9423, 1, 9424); (11264, 11311, 1, 11312); (11360, 11360, 1, 11361);
   (11362, 11362, 1, 619); (11363, 11363, 1, 7549); (11364, 11364, 1, 637); (11367, 11371, 2, 11368);
   (11373, 11373, 1, 593); (11374, 11374, 1, 625); (11375, 11375, 1, 592); (11376, 11376, 1, 594);
   (11378, 11378, 1, 11379); (11381, 11381, 1, 11382); (11390, 11391, 1, 575); (11392, 11490, 2, 11393);
   (11499, 11501, 2, 11500); (11506, 11506, 1, 11507); (42560, 42604, 2, 42561); (42624, 42650, 2, 42625);
   (42786, 42798, 2, 42787); (42802, 42862, 2, 42803); (42873, 42875, 2, 42874); (42877, 42877, 1, 7545);
   (42878, 42886, 2, 42879); (42891, 42891, 1, 42892); (42893, 42893, 1, 613); (42896, 42898, 2, 42897);
   (42902, 42920, 2, 42903); (42922, 42922, 1, 614); (42923, 42923, 1, 604); (42924, 42924, 1, 609);
   (42925, 42925, 1, 620); (42926, 42926, 1, 618); (42928, 42928, 1, 670); (42929, 42929, 1, 647);
   (42930, 42930, 1, 669); (42931, 42931, 1, 43859); (42932, 42946, 2, 42933); (42948, 42948, 1, 42900);
   (42949, 42949, 1, 642); (42950, 42950, 1, 7566); (42951, 42953, 2, 42952); (42960, 42960, 1, 42961);
   (42966, 42968, 2, 42967); (42997, 42997, 1, 42998); (65313, 65338, 1, 65345); (66560, 66599, 1, 66600);
   (66736, 66771, 1, 66776); (66928, 66938, 1, 66967); (66940, 66954, 1, 66979); (66956, 66962, 1, 66995);
   (66964, 66965, 1, 67003); (68736, 68786, 1, 68800); (71840, 71871, 1, 71872); (93760, 93791, 1, 93792);
   (125184, 125217, 1, 125218)].

Fixpoint table_lookup (rows : list (N * N * N * N)) (c : N) : N :=
  match rows with
  | [] => c
  | (first, last, step, image) :: rows' =>
      if c <? first then c
      else if (c <=? last) && ((c - first) mod step =? 0)
           then image + (c - first)
           else table_lookup rows' c
  end.

(** [_PyUnicode_ToLowercase]: the simple lower-case form. *)
Definition tolower (c : N) : N := table_lookup lower_table c.

(** [_PyUnicode_ToLowerFull]: the full lower-case form, which is the
    simple one but for U+0130. *)
Definition tolower_full (c : N) : text :=
  if c =? 304 then [105; 775] else [tolower c].

(** The code points with the property Cased, and those with the property
    Case_Ignorable, as ranges [(first, last)] in the order of the code
    points. *)
Definition cased_table : list (N * N) :=
  [(65, 90); (97, 122); (170, 170); (181, 181); (186, 186); (192, 214);
   (216, 246); (248, 442); (444, 447); (452, 659); (661, 696); (704, 705);
   (736, 740); (837, 837); (880, 883); (886, 887); (890, 893); (895, 895);
   (902, 902); (904, 906); (908, 908); (910, 929); (931, 1013); (1015, 1153);
   (1162, 1327); (1329, 1366); (1376, 1416); (4256, 4293); (4295, 4295); (4301, 4301);
   (4304, 4346); (4349, 4351); (5024, 5109); (5112, 5117); (7296, 7304); (7312, 7354);
   (7357, 7359); (7424, 7615); (7680, 7957); (7960, 7965); (7968, 8005); (8008, 8013);
   (8016, 8023); (8025, 8025); (8027, 8027); (8029, 8029); (8031, 8061); (8064, 8116);
   (8118, 8124); (8126, 8126); (8130, 8132); (8134, 8140); (8144, 8147); (8150, 8155);
   (8160, 8172); (8178, 8180); (8182, 8188); (8305, 8305); (8319, 8319); (8336, 8348);
   (8450, 8450); (8455, 8455); (8458, 8467); (8469, 8469); (8473, 8477); (8484, 8484);
   (8486, 8486); (8488, 8488); (8490, 8493); (8495, 8500); (8505, 8505); (8508, 8511);
   (8517, 8521); (8526, 8526); (8544, 8575); (8579, 8580); (9398, 9449); (11264, 11492);
   (11499, 11502); (11506, 11507); (11520, 11557); (11559, 11559); (11565, 11565); (42560, 42605);
   (42624, 42653); (42786, 42887); (42891, 42894); (42896, 42954); (42960, 42961); (42963, 42963);
   (42965, 42969); (42997, 42998); (43000, 43002); (43824, 43866); (43868, 43880); (43888, 43967);
   (64256, 64262); (64275, 64279); (65313, 65338); (65345, 65370); (66560, 66639); (66736, 66771);
   (66776, 66811); (66928, 66938); (66940, 66954); (66956, 66962); (66964, 66965); (66967, 66977);
   (66979, 66993); (66995, 67001); (67003, 67004); (67456, 67456); (67459, 67461); (67463, 67504);
   (67506, 67514); (68736, 68786); (68800, 68850); (71840, 71903); (93760, 93823); (119808, 119892);
   (119894, 119964); (119966, 119967); (119970, 119970); (119973, 119974); (119977, 119980); (119982, 119993);
   (119995, 119995); (119997, 120003); (120005, 120069); (120071, 120074); (120077, 120084); (120086, 120092);
   (120094, 120121); (120123, 120126); (120128, 120132); (120134, 120134); (120138, 120144); (120146, 120485);
   (120488, 120512); (120514, 120538); (120540, 120570); (120572, 120596); (120598, 120628); (120630, 120654);
   (120656, 120686); (120688, 120712); (120714, 120744); (120746, 120770); (120772, 120779); (122624, 122633);
   (122635, 122654); (125184, 125251); (127280, 127305); (127312, 127337); (127344, 127369)].

Definition case_ignorable_table : list (N * N) :=
  [(39, 39); (46, 46); (58, 58); (94, 94); (96, 96); (168, 168);
   (173, 173); (175, 175); (180, 180); (183, 184); (688, 879); (884, 885);
   (890, 890); (900, 901); (903, 903); (1155, 1161); (1369, 1369); (1375, 1375);
   (1425, 1469); (1471, 1471); (1473, 1474); (1476, 1477); (1479, 1479); (1524, 1524);
   (1536, 1541); (1552, 1562); (1564, 1564); (1600, 1600); (1611, 1631); (1648, 1648);
   (1750, 1757); (1759, 1768); (1770, 1773); (1807, 1807); (1809, 1809); (1840, 1866);
   (1958, 1968); (2027, 2037); (2042, 2042); (2045, 2045); (2070, 2093); (2137, 2139);
   (2184, 2184); (2192, 2193); (2200, 2207); (2249, 2306); (2362, 2362); (2364, 2364);
   (2369, 2376); (2381, 2381); (2385, 2391); (2402, 2403); (2417, 2417); (2433, 2433);
   (2492, 2492); (2497, 2500); (2509, 2509); (2530, 2531); (2558, 2558); (2561, 2562);
   (2620, 2620); (2625, 2626); (2631, 2632); (2635, 2637); (2641, 2641); (2672, 2673);
   (2677, 2677); (2689, 2690); (2748, 2748); (2753, 2757); (2759, 2760); (2765, 2765);
   (2786, 2787); (2810, 2815); (2817, 2817); (2876, 2876); (2879, 2879); (2881, 2884);
   (2893, 2893); (2901, 2902); (2914, 2915); (2946, 2946); (3008, 3008); (3021, 3021);
   (3072, 3072); (3076, 3076); (3132, 3132); (3134, 3136); (3142, 3144); (3146, 3149);
   (3157, 3158); (3170, 3171); (3201, 3201); (3260, 3260); (3263, 3263); (3270, 3270);
   (3276, 3277); (3298, 3299); (3328, 3329); (3387, 3388); (3393, 3396); (3405, 3405);
   (3426, 3427); (3457, 3457); (3530, 3530); (3538, 3540); (3542, 3542); (3633, 3633);
   (3636, 3642); (3654, 3662); (3761, 3761); (3764, 3772); (3782, 3782); (3784, 3789);
   (3864, 3865); (3893, 3893); (3895, 3895); (3897, 3897); (3953, 3966); (3968, 3972);
   (3974, 3975); (3981, 3991); (3993, 4028); (4038, 4038); (4141, 4144); (4146, 4151);
   (4153, 4154); (4157, 4158); (4184, 4185); (4190, 4192); (4209, 4212); (4226, 4226);
   (4229, 4230); (4237, 4237); (4253, 4253); (4348, 4348); (4957, 4959); (5906, 5908);
   (5938, 5939); (5970, 5971); (6002, 6003); (6068, 6069); (6071, 6077); (6086, 6086);
   (6089, 6099); (6103, 6103); (6109, 6109); (6155, 6159); (6211, 6211); (6277, 6278);
   (6313, 6313); (6432, 6434); (6439, 6440); (6450, 6450); (6457, 6459); (6679, 6680);
   (6683, 6683); (6742, 6742); (6744, 6750); (6752, 6752); (6754, 6754); (6757, 6764);
   (6771, 6780); (6783, 6783); (6823, 6823); (6832, 6862); (6912, 6915); (6964, 6964);
   (6966, 6970); (6972, 6972); (6978, 6978); (7019, 7027); (7040, 7041); (7074, 7077);
   (7080, 7081); (7083, 7085); (7142, 7142); (7144, 7145); (7149, 7149); (7151, 7153);
   (7212, 7219); (7222, 7223); (7288, 7293); (7376, 7378); (7380, 7392); (7394, 7400);
   (7405, 7405); (7412, 7412); (7416, 7417); (7468, 7530); (7544, 7544); (7579, 7679);
   (8125, 8125); (8127, 8129); (8141, 8143); (8157, 8159); (8173, 8175); (8189, 8190);
   (8203, 8207); (8216, 8217); (8228, 8228); (8231, 8231); (8234, 8238); (8288, 8292);
   (8294, 8303); (8305, 8305); (8319, 8319); (8336, 8348); (8400, 8432); (11388, 11389);
   (11503, 11505); (11631, 11631); (11647, 11647); (11744, 11775); (11823, 11823); (12293, 12293);
   (12330, 12333); (12337, 12341); (12347, 12347); (12441, 12446); (12540, 12542); (40981, 40981);
   (42232, 42237); (42508, 42508); (42607, 42610); (42612, 42621); (42623, 42623); (42652, 42655);
   (42736, 42737); (42752, 42785); (42864, 42864); (42888, 42890); (42994, 42996); (43000, 43001);
   (43010, 43010); (43014, 43014); (43019, 43019); (43045, 43046); (43052, 43052); (43204, 43205);
   (43232, 43249); (43263, 43263); (43302, 43309); (43335, 43345); (43392, 43394); (43443, 43443);
   (43446, 43449); (43452, 43453); (43471, 43471); (43493, 43494); (43561, 43566); (43569, 43570);
   (43573, 43574); (43587, 43587); (43596, 43596); (43632, 43632); (43644, 43644); (43696, 43696);
   (43698, 43700); (43703, 43704); (43710, 43711); (43713, 43713); (43741, 43741); (43756, 43757);
   (43763, 43764); (43766, 43766); (43867, 43871); (43881, 43883); (44005, 44005); (44008, 44008);
   (44013, 44013); (64286, 64286); (64434, 64450); (65024, 65039); (65043, 65043); (65056, 65071);
   (65106, 65106); (65109, 65109); (65279, 65279); (65287, 65287); (65294, 65294); (65306, 65306);
   (65342, 65342); (65344, 65344); (65392, 65392); (65438, 65439); (65507, 65507); (65529, 65531);
   (66045, 66045); (66272, 66272); (66422, 66426); (67456, 67461); (67463, 67504); (67506, 67514);
   (68097, 68099); (68101, 68102); (68108, 68111); (68152, 68154); (68159, 68159); (68325, 68326);
   (68900, 68903); (69291, 69292); (69446, 69456); (69506, 69509); (69633, 69633); (69688, 69702);
   (69744, 69744); (69747, 69748); (69759, 69761); (69811, 69814); (69817, 69818); (69821, 69821);
   (69826, 69826); (69837, 69837); (69888, 69890); (69927, 69931); (69933, 69940); (70003, 70003);
   (70016, 70017); (70070, 70078); (70089, 70092); (70095, 70095); (70191, 70193); (70196, 70196);
   (70198, 70199); (70206, 70206); (70367, 70367); (70371, 70378); (70400, 70401); (70459, 70460);
   (70464, 70464); (70502, 70508); (70512, 70516); (70712, 70719); (70722, 70724); (70726, 70726);
   (70750, 70750); (70835, 70840); (70842, 70842); (70847, 70848); (70850, 70851); (71090, 71093);
   (71100, 71101); (71103, 71104); (71132, 71133); (71219, 71226); (71229, 71229); (71231, 71232);
   (71339, 71339); (71341, 71341); (71344, 71349); (71351, 71351); (71453, 71455); (71458, 71461);
   (71463, 71467); (71727, 71735); (71737, 71738); (71995, 71996); (71998, 71998); (72003, 72003);
   (72148, 72151); (72154, 72155); (72160, 72160); (72193, 72202); (72243, 72248); (72251, 72254);
   (72263, 72263); (72273, 72278); (72281, 72283); (72330, 72342); (72344, 72345); (72752, 72758);
   (72760, 72765); (72767, 72767); (72850, 72871); (72874, 72880); (72882, 72883); (72885, 72886);
   (73009, 73014); (73018, 73018); (73020, 73021); (73023, 73029); (73031, 73031); (73104, 73105);
   (73109, 73109); (73111, 73111); (73459, 73460); (78896, 78904); (92912, 92916); (92976, 92982);
   (92992, 92995); (94031, 94031); (94095, 94111); (94176, 94177); (94179, 94180); (110576, 110579);
   (110581, 110587); (110589, 110590); (113821, 113822); (113824, 113827); (118528, 118573); (118576, 118598);
   (119143, 119145); (119155, 119170); (119173, 119179); (119210, 119213); (119362, 119364); (121344, 121398);
   (121403, 121452); (121461, 121461); (121476, 121476); (121499, 121503); (121505, 121519); (122880, 122886);
   (122888, 122904); (122907, 122913); (122915, 122916); (122918, 122922); (123184, 123197); (123566, 123566);
   (123628, 123631); (125136, 125142); (125252, 125259); (127995, 127999); (917505, 917505); (917536, 917631);
   (917760, 917999)].

Fixpoint in_ranges (ranges : list (N * N)) (c : N) : bool :=
  match ranges with
  | [] => false
  | (first, last) :: ranges' =>
      if c <? first then false
      else (c <=? last) || in_ranges ranges' c
  end.

(** [_PyUnicode_IsCased] and [_PyUnicode_IsCaseIgnorable] *)
Definition cased (c : N) : bool := in_ranges cased_table c.
Definition case_ignorable (c : N) : bool := in_ranges case_ignorable_table c.

Fixpoint skip_ignorable (s : text) : text :=
  match s with
  | c :: s' => if case_ignorable c then skip_ignorable s' else s
  | [] => []
  end.

(** [handle_capital_sigma]: a capital sigma is final when a cased letter
    stands before it and none after it, case-ignorable code points
    skipped on both sides.  [before] holds the code points before the
    sigma, the nearest first; [after] those that follow it. *)
Definition final_sigma (before after : text) : bool :=
  match skip_ignorable before with
  | c :: _ =>
      cased c
      && match skip_ignorable after with
         | c' :: _ => negb (cased c')
         | [] => true
         end
  | [] => false
  end.

(** [lower_ucs4]: the lower-case form of [c] where it stands. *)
Definition lower_char (before : text) (c : N) (after : text) : text :=
  if c =? 931
  then [if final_sigma before after then 962 else 963]
  else tolower_full c.

Fixpoint lower_from (before s : text) : text :=
  match s with
  | [] => []
  | c :: s' => lower_char before c s' ++ lower_from (c :: before) s'
  end.

(** [s.lower()] *)
Definition lower (s : text) : text := lower_from [] s.

Fixpoint startswith (p s : text) : bool :=
  match p, s with
  | [], _ => true
  | _ :: _, [] => false
  | a :: p', b :: s' => (a =? b) && startswith p' s'
  end.

(** [needle in hay] on strings: substring test. *)
Fixpoint contains (needle hay : text) : bool :=
  startswith needle hay ||
  match hay with
  | [] => false
  | _ :: hay' => contains needle hay'
  end.

(** [a < b] on strings: lexicographic order of the code points. *)
Fixpoint ltb (a b : text) : bool :=
  match a, b with
  | _, [] => false
  | [], _ :: _ => true
  | x :: a', y :: b' => (x <? y) || ((x =? y) && ltb a' b')
  end.

(** Truthiness of a string or of a list: [not s] is [negb (nonempty s)]. *)
Definition nonempty {A : Type} (s : list A) : bool :=
  match s with [] => false | _ :: _ => true end.

(** A Unicode scalar value: a code point up to U+10FFFF that is not a
    surrogate.  Text that reaches the program through a widget, or that
    was decoded from UTF-8, consists of scalar values. *)
Definition is_scalar (c : N) : bool :=
  (c <? 55296) || ((57344 <=? c) && (c <? 1114112)).

Definition unicode (s : text) : bool := forallb is_scalar s.

End Text.
Import Text.

(** ** Results and exceptions *)

(** The error numbers of the operating system that the model tells
    apart. *)
Inductive errno : Type :=
| ENOENT | ENOTDIR | EBADF | ELOOP | EACCES | EISDIR | EIO | ENOSPC.

Inductive exn : Type :=
| OSError (code : errno)
| JSONDecodeError (msg : string)
| RecursionError
| ValueError (msg : string).

Inductive result (A : Type) : Type :=
| Return (a : A)
| Raise (e : exn).
Arguments Return {A} a.
Arguments Raise {A} e.

#[global] Instance result_ret : MRet result := fun A a => Return a.

#[global] Instance result_bind : MBind result := fun A B k r =>
  match r with
  | Return a => k a
  | Raise e => Raise e
  end.

(** [try: body / except Exception as e: handler e] *)
Definition try_except {A} (body : result A) (handler : exn -> result A)
  : result A :=
  match body with
  | Return a => Return a
  | Raise e => handler e
  end.

(** ** JSON values, [json.dumps] and [json.loads] *)

Module Json.

(** The Python values that the [json] module reads and writes.  A dict
    keeps its items in insertion order.  A float is kept as the literal
    that denotes it. *)
Inductive json : Type :=
| JNull
| JBool (b : bool)
| JInt (z : Z)
| JFloat (literal : text)
| JStr (s : text)
| JList (items : list json)
| JDict (items : list (text * json)).

(** *** Encoding (default options: [ensure_ascii], separators
    [", "] and [": "]) *)

Definition hexdigit (d : N) : N := if d <? 10 then 48 + d else 87 + d.

(** ['{0:04x}'.format(n)] *)
Definition hex4 (n : N) : text :=
  [hexdigit (n / 4096 mod 16); hexdigit (n / 256 mod 16);
   hexdigit (n / 16 mod 16); hexdigit (n mod 16)].

(** One character of a string literal: the short escapes, printable
    ASCII as it is, every other code point as [\uXXXX], as a surrogate
    pair beyond the basic plane. *)
Definition escape_char (c : N) : text :=
  if c =? 34 then [92; 34]
  else if c =? 92 then [92; 92]
  else if c =? 10 then [92; 110]
  else if c =? 13 then [92; 114]
  else if c =? 9 then [92; 116]
  else if c =? 12 then [92; 102]
  else if c =? 8 then [92; 98]
  else if (32 <=? c) && (c <=? 126) then [c]
  else if c <? 65536 then 92 :: 117 :: hex4 c
  else
    let n := c - 65536 in
    (92 :: 117 :: hex4 (55296 + n / 1024 mod 1024))
      ++ (92 :: 117 :: hex4 (56320 + n mod 1024)).

Definition dump_str (s : text) : text :=
  34 :: flat_map escape_char s ++ [34].

Fixpoint uint_text (u : Decimal.uint) : text :=
  match u with
  | Decimal.Nil => []
  | Decimal.D0 u => 48 :: uint_text u
  | Decimal.D1 u => 49 :: uint_text u
  | Decimal.D2 u => 50 :: uint_text u
  | Decimal.D3 u => 51 :: uint_text u
  | Decimal.D4 u => 52 :: uint_text u
  | Decimal.D5 u => 53 :: uint_text u
  | Decimal.D6 u => 54 :: uint_text u
  | Decimal.D7 u => 55 :: uint_text u
  | Decimal.D8 u => 56 :: uint_text u
  | Decimal.D9 u => 57 :: uint_text u
  end.

(** [int.__repr__] *)
Definition dump_int (z : Z) : text :=
  match Z.to_int z with
  | Decimal.Pos u => uint_text u
  | Decimal.Neg u => 45 :: uint_text u
  end.

(** [", ".join(parts)] *)
Fixpoint join_comma (parts : list text) : text :=
  match parts with
  | [] => []
  | [p] => p
  | p :: ps => p ++ 44 :: 32 :: join_comma ps
  end.

Fixpoint dumps (v : json) : text :=
  match v with
  | JNull => str "null"
  | JBool true => str "true"
  | JBool false => str "false"
  | JInt z => dump_int z
  | JFloat literal => literal
  | JStr s => dump_str s
  | JList items => 91 :: join_comma (List.map dumps items) ++ [93]
  | JDict items =>
      123 :: join_comma
               (List.map (fun kv => dump_str (fst kv) ++ 58 :: 32 :: dumps (snd kv))
                  items) ++ [125]
  end.

(** *** Decoding *)

Definition is_ws (c : N) : bool :=
  (c =? 32) || (c =? 9) || (c =? 10) || (c =? 13).

Fixpoint skip_ws (s : text) : text :=
  match s with
  | c :: s' => if is_ws c then skip_ws s' else s
  | [] => []
  end.

Definition unhex (c : N) : option N :=
  if (48 <=? c) && (c <=? 57) then Some (c - 48)
  else if (97 <=? c) && (c <=? 102) then Some (c - 87)
  else if (65 <=? c) && (c <=? 70) then Some (c - 55)
  else None.

(** [int(s[pos + 1:pos + 5], 16)] of [_decode_uXXXX] *)
Definition unhex4 (a b c d : N) : option N :=
  match unhex a, unhex b, unhex c, unhex d with
  | Some a, Some b, Some c, Some d => Some (4096 * a + 256 * b + 16 * c + d)
  | _, _, _, _ => None
  end.

Definition is_high_surrogate (u : N) : bool := (55296 <=? u) && (u <=? 56319).
Definition is_low_surrogate (u : N) : bool := (56320 <=? u) && (u <=? 57343).

(** The short escapes of a string literal. *)
Definition unescape (e : N) : option N :=
  if e =? 34 then Some 34
  else if e =? 92 then Some 92
  else if e =? 47 then Some 47
  else if e =? 98 then Some 8
  else if e =? 102 then Some 12
  else if e =? 110 then Some 10
  else if e =? 114 then Some 13
  else if e =? 116 then Some 9
  else None.

Definition push_char (c : N) (r : result (text * text)) : result (text * text) :=
  '(x, rest) ← r; Return (c :: x, rest).

Definition unterminated : exn := JSONDecodeError "Unterminated string starting at".
Definition invalid_uXXXX : exn := JSONDecodeError "Invalid \uXXXX escape".

(** [scanstring]: [s] starts just after the opening quote; the result
    is the decoded string and the text after the closing quote. *)
Fixpoint scanstring (s : text) : result (text * text) :=
  match s with
  | [] => Raise unterminated
  | c :: s1 =>
    if c =? 34 then Return ([], s1)
    else if c =? 92 then
      match s1 with
      | [] => Raise unterminated
      | e :: s2 =>
        if e =? 117 then
          match s2 with
          | h1 :: h2 :: h3 :: h4 :: s3 =>
            match unhex4 h1 h2 h3 h4 with
            | None => Raise invalid_uXXXX
            | Some uni =>
              if is_high_surrogate uni && startswith [92; 117] s3 then
                match s3 with
                | _ :: _ :: l1 :: l2 :: l3 :: l4 :: s4 =>
                  match unhex4 l1 l2 l3 l4 with
                  | None => Raise invalid_uXXXX
                  | Some uni2 =>
                    if is_low_surrogate uni2 then
                      push_char
                        (65536 + N.lor (N.shiftl (uni - 55296) 10) (uni2 - 56320))
                        (scanstring s4)
                    else push_char uni (scanstring s3)
                  end
                | _ => Raise invalid_uXXXX
                end
              else push_char uni (scanstring s3)
            end
          | _ => Raise invalid_uXXXX
          end
        else
          match unescape e with
          | Some c' => push_char c' (scanstring s2)
          | None => Raise (JSONDecodeError "Invalid \escape")
          end
      end
    else if c <? 32 then Raise (JSONDecodeError "Invalid control character at")
    else push_char c (scanstring s1)
  end.

Definition digit (c : N) : option (Decimal.uint -> Decimal.uint) :=
  if c =? 48 then Some Decimal.D0
  else if c =? 49 then Some Decimal.D1
  else if c =? 50 then Some Decimal.D2
  else if c =? 51 then Some Decimal.D3
  else if c =? 52 then Some Decimal.D4
  else if c =? 53 then Some Decimal.D5
  else if c =? 54 then Some Decimal.D6
  else if c =? 55 then Some Decimal.D7
  else if c =? 56 then Some Decimal.D8
  else if c =? 57 then Some Decimal.D9
  else None.

(** The longest run of decimal digits at the head of [s], and what
    follows it. *)
Fixpoint digits (s : text) : Decimal.uint * text :=
  match s with
  | [] => (Decimal.Nil, [])
  | c :: s' =>
    match digit c with
    | Some d => let '(u, rest) := digits s' in (d u, rest)
    | None => (Decimal.Nil, s)
    end
  end.

(** The integer part of [NUMBER_RE]: an optional minus sign, then a
    single zero or a run of digits that starts with a non-zero one. *)
Definition scan_integer (s : text) : option (Decimal.int * text) :=
  let '(negative, s1) :=
    match s with
    | c :: s' => if c =? 45 then (true, s') else (false, s)
    | [] => (false, s)
    end in
  match s1 with
  | [] => None
  | c :: s2 =>
    let sign := if negative then Decimal.Neg else Decimal.Pos in
    if c =? 48 then Some (sign (Decimal.D0 Decimal.Nil), s2)
    else
      match digits s1 with
      | (Decimal.Nil, _) => None
      | (u, rest) => Some (sign u, rest)
      end
  end.

(** The optional fraction of [NUMBER_RE]: a dot and at least one digit.
    Returns the characters taken. *)
Definition scan_frac (s : text) : text * text :=
  match s with
  | c :: s' =>
    if c =? 46 then
      match digits s' with
      | (Decimal.Nil, _) => ([], s)
      | (u, rest) => (46 :: uint_text u, rest)
      end
    else ([], s)
  | [] => ([], s)
  end.

(** The optional exponent of [NUMBER_RE]: [e] or [E], an optional sign
    and at least one digit. *)
Definition scan_exp (s : text) : text * text :=
  match s with
  | c :: s' =>
    if (c =? 101) || (c =? 69) then
      let '(sign, s1) :=
        match s' with
        | d :: s'' => if (d =? 45) || (d =? 43) then ([d], s'') else ([], s')
        | [] => ([], s')
        end in
      match digits s1 with
      | (Decimal.Nil, _) => ([], s)
      | (u, rest) => (c :: sign ++ uint_text u, rest)
      end
    else ([], s)
  | [] => ([], s)
  end.

Definition int_literal (i : Decimal.int) : text :=
  match i with
  | Decimal.Pos u => uint_text u
  | Decimal.Neg u => 45 :: uint_text u
  end.

(** [match_number]: an [int] when the literal has neither fraction nor
    exponent, a [float] otherwise. *)
Definition scan_number (s : text) : option (json * text) :=
  match scan_integer s with
  | None => None
  | Some (i, s1) =>
    let '(frac, s2) := scan_frac s1 in
    let '(exp, s3) := scan_exp s2 in
    match frac, exp with
    | [], [] => Some (JInt (Z.of_int i), s3)
    | _, _ => Some (JFloat (int_literal i ++ frac ++ exp), s3)
    end
  end.

(** [d[k] = v] on a dict kept as its list of items. *)
Fixpoint dict_set (k : text) (v : json) (d : list (text * json))
  : list (text * json) :=
  match d with
  | [] => [(k, v)]
  | (k', v') :: d' =>
    if decide (k' = k) then (k, v) :: d' else (k', v') :: dict_set k v d'
  end.

(** [dict(pairs)] *)
Definition dict (pairs : list (text * json)) : list (text * json) :=
  fold_left (fun d kv => dict_set (fst kv) (snd kv) d) pairs [].

Definition expecting_value : exn := JSONDecodeError "Expecting value".
Definition expecting_comma : exn := JSONDecodeError "Expecting ',' delimiter".
Definition expecting_colon : exn := JSONDecodeError "Expecting ':' delimiter".
Definition expecting_name : exn :=
  JSONDecodeError "Expecting property name enclosed in double quotes".

Section Containers.

(** The scanner for the values inside the container. *)
Variable scan : text -> result (json * text).

(** The [while True] loop of [JSONArray].  [s] stands at a value;
    [fuel] bounds the number of values, each of which takes at least
    one character. *)
Fixpoint array_loop (fuel : nat) (values : list json) (s : text)
  : result (json * text) :=
  match fuel with
  | O => Raise expecting_value
  | S fuel' =>
    '(value, s1) ← scan s;
    match skip_ws s1 with
    | c :: s2 =>
      if c =? 93 then Return (JList (values ++ [value]), s2)
      else if c =? 44 then array_loop fuel' (values ++ [value]) (skip_ws s2)
      else Raise expecting_comma
    | [] => Raise expecting_comma
    end
  end.

(** [JSONArray]: [s] starts just after the opening bracket. *)
Definition JSONArray (s : text) : result (json * text) :=
  match skip_ws s with
  | c :: s1 =>
    if c =? 93 then Return (JList [], s1)
    else array_loop (length (skip_ws s)) [] (skip_ws s)
  | [] => Raise expecting_value
  end.

(** The [while True] loop of [JSONObject].  [s] starts just after the
    opening quote of a key. *)
Fixpoint object_loop (fuel : nat) (pairs : list (text * json)) (s : text)
  : result (json * text) :=
  match fuel with
  | O => Raise expecting_name
  | S fuel' =>
    '(key, s1) ← scanstring s;
    match skip_ws s1 with
    | c :: s2 =>
      if c =? 58 then
        '(value, s3) ← scan (skip_ws s2);
        match skip_ws s3 with
        | d :: s4 =>
          if d =? 125 then Return (JDict (dict (pairs ++ [(key, value)])), s4)
          else if d =? 44 then
            match skip_ws s4 with
            | q :: s5 =>
              if q =? 34 then object_loop fuel' (pairs ++ [(key, value)]) s5
              else Raise expecting_name
            | [] => Raise expecting_name
            end
          else Raise expecting_comma
        | [] => Raise expecting_comma
        end
      else Raise expecting_colon
    | [] => Raise expecting_colon
    end
  end.

(** [JSONObject]: [s] starts just after the opening brace. *)
Definition JSONObject (s : text) : result (json * text) :=
  match skip_ws s with
  | c :: s1 =>
    if c =? 125 then Return (JDict [], s1)
    else if c =? 34 then object_loop (length s1) [] s1
    else Raise expecting_name
  | [] => Raise expecting_name
  end.

End Containers.

(** [scan_once]: one value at the head of [s].  [depth] bounds the
    nesting of containers; running out of it is Python's
    [RecursionError]. *)
Fixpoint scan_once (depth : nat) (s : text) : result (json * text) :=
  match depth with
  | O => Raise RecursionError
  | S depth' =>
    match s with
    | [] => Raise expecting_value
    | c :: s1 =>
      if c =? 34 then '(x, rest) ← scanstring s1; Return (JStr x, rest)
      else if c =? 123 then JSONObject (scan_once depth') s1
      else if c =? 91 then JSONArray (scan_once depth') s1
      else if startswith (str "null") s then Return (JNull, skipn 4 s)
      else if startswith (str "true") s then Return (JBool true, skipn 4 s)
      else if startswith (str "false") s then Return (JBool false, skipn 5 s)
      else
        match scan_number s with
        | Some r => Return r
        | None =>
          if startswith (str "NaN") s
          then Return (JFloat (str "NaN"), skipn 3 s)
          else if startswith (str "Infinity") s
          then Return (JFloat (str "Infinity"), skipn 8 s)
          else if startswith (str "-Infinity") s
          then Return (JFloat (str "-Infinity"), skipn 9 s)
          else Raise expecting_value
        end
    end
  end.

(** [json.loads(s)].  The depth allowed is the length of the text: a
    value nested [k] deep takes at least [k] characters, so the model
    decodes at any depth, and it reads an integer of any number of
    digits; see [within_limits] for the documents that the interpreter
    decodes too. *)
Definition loads (s : text) : result json :=
  if startswith [65279] s
  then Raise (JSONDecodeError "Unexpected UTF-8 BOM (decode using utf-8-sig)")
  else
    '(v, rest) ← scan_once (S (length s)) (skip_ws s);
    match skip_ws rest with
    | [] => Return v
    | _ :: _ => Raise (JSONDecodeError "Extra data")
    end.

(** *** Notions used to state the round trip *)

(** The values [dumps] writes in a form [loads] reads back: no float,
    strings of scalar values, and no key twice in a dict. *)
Fixpoint jsonable (v : json) : bool :=
  match v with
  | JNull | JBool _ | JInt _ => true
  | JFloat _ => false
  | JStr s => unicode s
  | JList items => forallb jsonable items
  | JDict items =>
      forallb (fun kv => unicode (fst kv) && jsonable (snd kv)) items
      && bool_decide (NoDup (List.map fst items))
  end.

(** The nesting of containers, counting the value itself. *)
Fixpoint depth (v : json) : nat :=
  match v with
  | JList items => S (fold_right (fun v n => Nat.max (depth v) n) 0%nat items)
  | JDict items =>
      S (fold_right (fun kv n => Nat.max (depth (snd kv)) n) 0%nat items)
  | _ => 1%nat
  end.

(** The interpreter decodes a document within limits that [loads]
    leaves out: the nesting of containers is bounded by the recursion
    limit (1000 frames by default, some of them in use when the file is
    read), and an integer literal may have 4300 digits at most.  A value
    within the limits is nested 100 deep at most and holds integers of
    4300 digits at most. *)
Fixpoint small_ints (v : json) : bool :=
  match v with
  | JInt z => (length (dump_int (Z.abs z)) <=? 4300)%nat
  | JList items => forallb small_ints items
  | JDict items => forallb (fun kv => small_ints (snd kv)) items
  | _ => true
  end.

Definition within_limits (v : json) : bool :=
  (depth v <=? 100)%nat && small_ints v.

(** What may follow an encoded value: nothing, a comma, or the end of
    the enclosing container. *)
Definition closes (rest : text) : bool :=
  match rest with
  | [] => true
  | c :: _ => (c =? 44) || (c =? 93) || (c =? 125)
  end.

(** The first character of an encoded value. *)
Definition opens (c : N) : Prop :=
  c = 34 \/ c = 123 \/ c = 91 \/ c = 110 \/ c = 116 \/ c = 102 \/ c = 45
  \/ 48 <= c <= 57.

(** [scan] reads the encoding of [v] back, whatever closes it. *)
Definition scans (scan : text -> result (json * text)) (v : json) : Prop :=
  forall rest, closes rest = true -> scan (dumps v ++ rest) = Return (v, rest).

(** One item of an encoded dict. *)
Definition pair_text (kv : text * json) : text :=
  dump_str (fst kv) ++ 58 :: 32 :: dumps (snd kv).

(** The same item after the opening quote of its key. *)
Definition pair_tail (kv : text * json) : text :=
  flat_map escape_char (fst kv) ++ 34 :: 58 :: 32 :: dumps (snd kv).

(** The items of an encoded dict after the opening quote of the first
    key. *)
Fixpoint pairs_tail (kv : text * json) (more : list (text * json)) : text :=
  match more with
  | [] => pair_tail kv
  | kv' :: more' => pair_tail kv ++ 44 :: 32 :: 34 :: pairs_tail kv' more'
  end.

(** Induction on a value with the hypothesis for every item of a
    container. *)
Section json_induction.
Variable P : json -> Prop.
Hypothesis Hnull : P JNull.
Hypothesis Hbool : forall b, P (JBool b).
Hypothesis Hint : forall z, P (JInt z).
Hypothesis Hfloat : forall l, P (JFloat l).
Hypothesis Hstr : forall s, P (JStr s).
Hypothesis Hlist : forall items, List.Forall P items -> P (JList items).
Hypothesis Hdict :
  forall items, List.Forall (fun kv => P (snd kv)) items -> P (JDict items).

Fixpoint json_nested_ind (v : json) : P v :=
  match v with
  | JNull => Hnull
  | JBool b => Hbool b
  | JInt z => Hint z
  | JFloat l => Hfloat l
  | JStr s => Hstr s
  | JList items =>
      Hlist items
        ((fix all (l : list json) : List.Forall P l :=
            match l with
            | [] => @List.Forall_nil _ P
            | x :: l' => @List.Forall_cons _ P x l' (json_nested_ind x) (all l')
            end) items)
  | JDict items =>
      Hdict items
        ((fix all (l : list (text * json))
            : List.Forall (fun kv => P (snd kv)) l :=
            match l with
            | [] => @List.Forall_nil _ (fun kv => P (snd kv))
            | x :: l' =>
                @List.Forall_cons _ (fun kv => P (snd kv)) x l'
                  (json_nested_ind (snd x)) (all l')
            end) items)
  end.
End json_induction.

End Json.
Import Json.

(** ** Python list operations used by the views *)

Module Py.

Section Sorted.
Context {A K : Type}.
(** [<] on keys, and the [key=] function. *)
Variable lt : K -> K -> bool.
Variable key : A -> K.

(** [x] goes in front of the first element whose key is not below
    its own, so that it stays ahead of the elements with an equal key
    that came after it. *)
Fixpoint insert (x : A) (l : list A) : list A :=
  match l with
  | [] => [x]
  | y :: l' => if lt (key y) (key x) then y :: insert x l' else x :: l
  end.

(** A stable sort: the one order of the elements that is ascending in
    the keys and keeps equal keys as they came. *)
Fixpoint stable_sort (l : list A) : list A :=
  match l with
  | [] => []
  | x :: l' => insert x (stable_sort l')
  end.

(** [sorted(l, key=key, reverse=reverse)]: a new list; with [reverse]
    the list is reversed, sorted, and reversed again. *)
Definition sorted (reverse : bool) (l : list A) : list A :=
  if reverse then rev (stable_sort (rev l)) else stable_sort l.

(** [a] may stand before [b] in ascending order: the key of [b] is
    not below the key of [a]. *)
Definition key_le (a b : A) : Prop := lt (key b) (key a) = false.

End Sorted.

Section Remove.
Context {A : Type} `{EqDecision A}.

Fixpoint remove_first (x : A) (l : list A) : option (list A) :=
  match l with
  | [] => None
  | y :: l' =>
    if decide (y = x) then Some l'
    else match remove_first x l' with
         | Some r => Some (y :: r)
         | None => None
         end
  end.

(** [l.remove(x)] on a mutable list: the list after the call, and
    how the call ended. *)
Definition list_remove (x : A) (l : list A) : list A * result unit :=
  match remove_first x l with
  | Some l' => (l', Return tt)
  | None => (l, Raise (ValueError "list.remove(x): x not in list"))
  end.

End Remove.

End Py.
Import Py.

(** ** The catalog *)

(** A book: the dict built by [add_book_view]. *)
Record Book : Type := {
  title : text;
  author : text;
  year : Z;
  genre : text;
  read : bool
}.

#[global] Instance Book_eq_dec : EqDecision Book.
Proof. solve_decision. Defined.

(** The book as the [json] module sees it. *)
Definition book_json (b : Book) : json :=
  JDict [(str "title", JStr (title b));
         (str "author", JStr (author b));
         (str "year", JInt (year b));
         (str "genre", JStr (genre b));
         (str "read", JBool (read b))].

Definition catalog_json (lib : list Book) : json :=
  JList (List.map book_json lib).

(** ** The store: [library.json] *)

(** The storage location as the program meets it.

    - [file] is the text of the file, when [os.stat] finds one;
    - [stat_errno] is the error of [os.stat] when it finds none:
      [ENOENT] where there is no file, [EACCES] where the directory may
      not be searched, and so on;
    - [readable] says whether opening the file and reading it succeeds;
    - [writable] says whether opening the file for writing and writing
      the text in full succeeds;
    - [short_write] says how a write fails that does not succeed: [None]
      when the file cannot be opened, and [Some n] when it is opened,
      which empties it, and the write fails after [n] characters (a full
      disk, a quota). *)
Record disk : Type := {
  file : option text;
  stat_errno : errno;
  readable : bool;
  writable : bool;
  short_write : option nat
}.

(** [_ignore_error] of [pathlib]: the errors of [os.stat] that
    [Path.exists] takes for the answer no. *)
Definition ignore_error (code : errno) : bool :=
  match code with
  | ENOENT | ENOTDIR | EBADF | ELOOP => true
  | _ => false
  end.

(** [Path(LIBRARY_FILE).exists()]: whether [os.stat] finds the file; an
    error of [os.stat] that is not ignored is raised again (pathlib of
    CPython 3.11). *)
Definition path_exists (d : disk) : result bool :=
  match file d with
  | Some _ => Return true
  | None =>
      if ignore_error (stat_errno d) then Return false
      else Raise (OSError (stat_errno d))
  end.

(** [open(LIBRARY_FILE, 'r')] and reading the whole file. *)
Definition read_file (d : disk) : result text :=
  match file d with
  | Some t => if readable d then Return t else Raise (OSError EACCES)
  | None => Raise (OSError (stat_errno d))
  end.

Definition set_file (t : text) (d : disk) : disk :=
  {| file := Some t; stat_errno := stat_errno d; readable := readable d;
     writable := writable d; short_write := short_write d |}.

(** [open(LIBRARY_FILE, 'w')] and writing [t].  Opening the file empties
    it, so a write that fails after that leaves the beginning of [t] and
    nothing of the former contents.  The result is the state of the
    storage location together with the outcome. *)
Definition write_file (t : text) (d : disk) : disk * result unit :=
  if writable d then (set_file t d, Return tt)
  else
    match short_write d with
    | None => (d, Raise (OSError EACCES))
    | Some n => (set_file (firstn n t) d, Raise (OSError ENOSPC))
    end.

(** What a view puts on the page. *)
Inductive notice : Type :=
| error_loading (e : exn)
| error_saving (e : exn)
| error_required_fields
| success_added (title : text)
| success_removed (title : text)
| success_found (n : nat)
| warning_empty_library
| warning_no_match
| remove_row (i : nat) (b : Book)
| book_list (books : list Book)
| metric_total (n : nat)
| metric_read (n : nat) (percentage : Q)
| genre_chart (genres : gmap text nat)
| read_chart (n_read n_unread : nat).

(** The test of line 21 stands before the [try], so what it raises
    leaves the function. *)
Definition load_library (d : disk) : result (json * list notice) :=
  found ← path_exists d;
  if negb found then Return (JList [], [])
  else
    try_except
      (t ← read_file d; v ← loads t; Return (v, []))
      (fun e => Return (JList [], [error_loading e])).

(** The handler goes on with the storage location as the failed write
    left it. *)
Definition save_library (lib : list Book) (d : disk)
  : result (disk * list notice) :=
  let (d', written) := write_file (dumps (catalog_json lib)) d in
  try_except
    (_ ← written; Return (d', []))
    (fun e => Return (d', [error_saving e])).

(** ** The session and the views *)

Inductive view : Type :=
| menu | add_book | remove_book | search_books | view_all | statistics_page.

(** The session as the views meet it, together with the storage
    location.  The library is a list of books: [world_of] below says
    which sessions these are. *)
Record world : Type := {
  library : list Book;
  current_view : view;
  storage : disk
}.

Definition go_to (v : view) (w : world) : world :=
  {| library := library w; current_view := v; storage := storage w |}.

(** One run of a view: the state it leaves, what it showed, and the
    exception that ended it, if any. *)
Record run : Type := {
  after : world;
  shown : list notice;
  raised : option exn
}.

Definition finish (w : world) (ns : list notice) : run :=
  {| after := w; shown := ns; raised := None |}.

(** The widgets of the add form. *)
Record add_form : Type := {
  title_input : text;
  author_input : text;
  year_input : Z;
  genre_input : text;
  read_input : bool;
  submitted : bool
}.

(** The dict literal of [add_book_view]. *)
Definition new_book (f : add_form) : Book :=
  {| title := strip (title_input f);
     author := strip (author_input f);
     year := year_input f;
     genre := if nonempty (strip (genre_input f))
              then strip (genre_input f) else str "Unknown";
     read := read_input f |}.

Definition add_book_view (f : add_form) (back : bool) (w : world) : run :=
  if submitted f then
    if negb (nonempty (title (new_book f))) || negb (nonempty (author (new_book f)))
    then finish w [error_required_fields]
    else
      let lib := library w ++ [new_book f] in
      match save_library lib (storage w) with
      | Return (d, ns) =>
          finish {| library := lib; current_view := menu; storage := d |}
                 (ns ++ [success_added (title (new_book f))])
      | Raise e =>
          {| after := {| library := lib; current_view := current_view w;
                         storage := storage w |};
             shown := []; raised := Some e |}
      end
  else if back then finish (go_to menu w) []
  else finish w [].

(** The books listed by [remove_book_view] for the search term. *)
Definition found_books (search_term : text) (lib : list Book) : list Book :=
  if nonempty search_term
  then List.filter
         (fun b => contains search_term (lower (title b))
                   || contains search_term (lower (author b))) lib
  else lib.

Fixpoint remove_rows (i : nat) (books : list Book) : list notice :=
  match books with
  | [] => []
  | b :: books' => remove_row i b :: remove_rows (S i) books'
  end.

(** [clicked] is the index in the list of the Remove button pressed in
    this run, if any. *)
Definition remove_book_view (search_input : text) (clicked : option nat)
    (back : bool) (w : world) : run :=
  if negb (nonempty (library w)) then
    finish (if back then go_to menu w else w) [warning_empty_library]
  else
    let search_term := lower search_input in
    let found := found_books search_term (library w) in
    match found with
    | [] => finish (if back then go_to menu w else w) [warning_no_match]
    | _ :: _ =>
      match clicked with
      | Some i =>
        match nth_error found i with
        | Some book =>
          let rows := remove_rows 0 (firstn (S i) found) in
          match list_remove book (library w) with
          | (lib, Return _) =>
            match save_library lib (storage w) with
            | Return (d, ns) =>
                finish {| library := lib; current_view := current_view w;
                          storage := d |}
                       (rows ++ ns ++ [success_removed (title book)])
            | Raise e =>
                {| after := {| library := lib; current_view := current_view w;
                               storage := storage w |};
                   shown := rows; raised := Some e |}
            end
          | (lib, Raise e) =>
              {| after := {| library := lib; current_view := current_view w;
                             storage := storage w |};
                 shown := rows; raised := Some e |}
          end
        | None => finish (if back then go_to menu w else w) (remove_rows 0 found)
        end
      | None => finish (if back then go_to menu w else w) (remove_rows 0 found)
      end
    end.

Inductive search_type : Type := Title | Author.

(** The results of [search_books_view]; [None] when the term is empty
    and the view shows nothing. *)
Definition search_results (ty : search_type) (search_term : text)
    (lib : list Book) : option (list Book) :=
  if nonempty search_term then
    match ty with
    | Title => Some (List.filter (fun b => contains search_term (lower (title b))) lib)
    | Author => Some (List.filter (fun b => contains search_term (lower (author b))) lib)
    end
  else None.

Definition search_books_view (ty : search_type) (search_input : text)
    (back : bool) (w : world) : run :=
  if negb (nonempty (library w)) then
    finish (if back then go_to menu w else w) [warning_empty_library]
  else
    let search_term := lower (strip search_input) in
    finish (if back then go_to menu w else w)
      match search_results ty search_term (library w) with
      | Some [] => [warning_no_match]
      | Some results => [success_found (length results); book_list results]
      | None => []
      end.

Inductive sort_option : Type :=
| Title_AZ | Title_ZA | Author_AZ | Author_ZA | Year_Newest | Year_Oldest.

(** The [sorted_library] of [view_all_books]. *)
Definition sorted_library (o : sort_option) (lib : list Book) : list Book :=
  match o with
  | Title_AZ => sorted Text.ltb (fun x => lower (title x)) false lib
  | Title_ZA => sorted Text.ltb (fun x => lower (title x)) true lib
  | Author_AZ => sorted Text.ltb (fun x => lower (author x)) false lib
  | Author_ZA => sorted Text.ltb (fun x => lower (author x)) true lib
  | Year_Newest => sorted Z.ltb year true lib
  | Year_Oldest => sorted Z.ltb year false lib
  end.

Definition view_all_books (o : sort_option) (back : bool) (w : world) : run :=
  if negb (nonempty (library w)) then
    finish (if back then go_to menu w else w) [warning_empty_library]
  else
    finish (if back then go_to menu w else w)
           [book_list (sorted_library o (library w))].

(** The figures of [statistics_view]. *)
Record stats : Type := {
  total_books : nat;
  read_count : nat;
  percentage_read : Q;
  genres : gmap text nat
}.

(** [book['genre'] if book['genre'] else "Unknown"] *)
Definition genre_label (book : Book) : text :=
  if nonempty (genre book) then genre book else str "Unknown".

(** One turn of the loop over the books: [genres[genre] =
    genres.get(genre, 0) + 1]. *)
Definition count_genre (gs : gmap text nat) (book : Book) : gmap text nat :=
  let g := genre_label book in
  <[g := (default 0%nat (gs !! g) + 1)%nat]> gs.

Definition statistics (lib : list Book) : stats :=
  let total := length lib in
  let n_read := length (List.filter read lib) in
  {| total_books := total;
     read_count := n_read;
     percentage_read :=
       if (0 <? total)%nat
       then (inject_Z (Z.of_nat n_read) / inject_Z (Z.of_nat total) * 100)%Q
       else 0%Q;
     genres := fold_left count_genre lib ∅ |}.

Definition statistics_view (back : bool) (w : world) : run :=
  if negb (nonempty (library w)) then
    finish (if back then go_to menu w else w) [warning_empty_library]
  else
    let s := statistics (library w) in
    finish (if back then go_to menu w else w)
      ([metric_total (total_books s);
        metric_read (read_count s) (percentage_read s)]
       ++ (if decide (genres s = ∅) then [] else [genre_chart (genres s)])
       ++ [read_chart (read_count s) (total_books s - read_count s)]).

(** ** Notions used to state the properties *)

(** The strings of a book are Unicode text. *)
Definition unicode_book (b : Book) : bool :=
  unicode (title b) && unicode (author b) && unicode (genre b).

(** The number of books filed under the genre [g]. *)
Definition occurrences (g : text) (lib : list Book) : nat :=
  length (List.filter (fun b => bool_decide (genre_label b = g)) lib).

(** The key a sort option compares, and its direction. *)
Definition sort_key (o : sort_option) (b : Book) : text + Z :=
  match o with
  | Title_AZ | Title_ZA => inl (lower (title b))
  | Author_AZ | Author_ZA => inl (lower (author b))
  | Year_Newest | Year_Oldest => inr (year b)
  end.




(** The text holds no capital sigma (U+03A3). *)
Definition no_capital_sigma (s : text) : bool :=
  forallb (fun c => negb (c =? 931)) s.





(** Sample data. *)
Definition dune : Book :=
  {| title := str "Dune"; author := str "Herbert"; year := 1965;
     genre := str "Sci-Fi"; read := true |}.

Definition emma : Book :=
  {| title := str "Emma"; author := str "Austen"; year := 1815;
     genre := str "Classic"; read := false |}.



(** A book whose title is the Greek word ODYSSEIA in capitals, and the
    text that holds its first four letters between two spaces. *)
Definition odysseia : Book :=
  {| title := [927; 916; 933; 931; 931; 917; 921; 913]; author := str "Homer";
     year := 0; genre := str "Epic"; read := true |}.

Definition odys_typed : text := [32; 927; 916; 933; 931; 32].

Definition dune_form : add_form :=
  {| title_input := str " Dune"; author_input := str "Herbert ";
     year_input := 1965; genre_input := str "Sci-Fi"; read_input := true;
     submitted := true |}.

Definition fresh_disk : disk :=
  {| file := None; stat_errno := ENOENT; readable := true; writable := true;
     short_write := None |}.

(** A storage location that holds the catalog with Emma and takes no
    more text: the file can be opened, and nothing can be written. *)
Definition full_disk : disk :=
  {| file := Some (dumps (catalog_json [emma])); stat_errno := ENOENT;
     readable := true; writable := false; short_write := Some 0%nat |}.

(** A storage location in a directory that may not be searched. *)
Definition locked_disk : disk :=
  {| file := None; stat_errno := EACCES; readable := false; writable := false;
     short_write := None |}.

Definition empty_world : world :=
  {| library := []; current_view := menu; storage := fresh_disk |}.

Definition sample_world : world :=
  {| library := [dune; emma]; current_view := menu; storage := fresh_disk |}.

(** ** The session keys, the menu and [main] *)

(** The keys of [st.session_state]: a key is [None] until it is set.
    The library is what [load_library] returned. *)
Record session_state : Type := {
  ss_library : option json;
  ss_current_view : option view;
  ss_search_term : option text;
  ss_search_type : option text
}.

Definition new_session : session_state :=
  {| ss_library := None; ss_current_view := None;
     ss_search_term := None; ss_search_type := None |}.

(** Each key is set when it is missing and left alone otherwise; only a
    missing library makes the function read the file. *)
Definition initialize_session_state (ss : session_state) (d : disk)
  : result (session_state * list notice) :=
  '(lib, ns) ← match ss_library ss with
               | Some v => Return (v, [])
               | None => load_library d
               end;
  Return ({| ss_library := Some lib;
             ss_current_view := Some (default menu (ss_current_view ss));
             ss_search_term := Some (default [] (ss_search_term ss));
             ss_search_type := Some (default (str "title") (ss_search_type ss)) |},
          ns).

(** The state that the views and [main] work on is a [world]: a session
    whose library is a list of books, as the add form builds them and as
    the file holds them when the program wrote it, with the storage
    location.  A session and a storage location make up the world [w]
    when the library of the session is the catalog of [w]. *)
Definition world_of (ss : session_state) (d : disk) (w : world) : Prop :=
  ss_library ss = Some (catalog_json (library w))
  /\ ss_current_view ss = Some (current_view w)
  /\ storage w = d.

(** The five buttons of the menu. *)
Record menu_buttons : Type := {
  add_button : bool;
  search_button : bool;
  statistics_button : bool;
  view_all_button : bool;
  remove_button : bool
}.

(** [if st.button(...): st.session_state.current_view = v] *)
Definition press (clicked : bool) (v : view) (w : world) : world :=
  if clicked then go_to v w else w.

(** The menu: the state it leaves and the total it writes.  It does not
    ask for a rerun, so the page chosen is drawn by the next run. *)
Definition display_menu (b : menu_buttons) (w : world) : world * nat :=
  let w1 := press (add_button b) add_book w in
  let w2 := press (search_button b) search_books w1 in
  let w3 := press (statistics_button b) statistics_page w2 in
  let w4 := press (view_all_button b) view_all w3 in
  let w5 := press (remove_button b) remove_book w4 in
  (w5, length (library w5)).

(** The widgets of one run, whichever page is drawn. *)
Record inputs : Type := {
  i_menu : menu_buttons;
  i_form : add_form;
  i_remove_term : text;
  i_remove_click : option nat;
  i_search_type : search_type;
  i_search_term : text;
  i_sort : sort_option;
  i_back : bool
}.

(** One run of the script on a session whose keys are set, which
    [initialize_session_state] leaves as it is: the page of the current
    view is drawn. *)
Definition main (i : inputs) (w : world) : run :=
  match current_view w with
  | menu => finish (fst (display_menu (i_menu i) w)) []
  | add_book => add_book_view (i_form i) (i_back i) w
  | remove_book => remove_book_view (i_remove_term i) (i_remove_click i) (i_back i) w
  | search_books => search_books_view (i_search_type i) (i_search_term i) (i_back i) w
  | view_all => view_all_books (i_sort i) (i_back i) w
  | statistics_page => statistics_view (i_back i) w
  end.

(** ** Further notions used to state properties *)

(** No white space at either end. *)
Definition trimmed (s : text) : bool :=
  match s with
  | [] => true
  | c :: _ => negb (isspace c) && negb (isspace (List.last s 0))
  end.

(** The book has a title, an author and a genre. *)
Definition complete (b : Book) : bool :=
  nonempty (title b) && nonempty (author b) && nonempty (genre b).

(** The file holds the encoding of the catalog in memory. *)
Definition persisted (w : world) : Prop :=
  file (storage w) = Some (dumps (catalog_json (library w))).

(** The sum of the counts of a histogram. *)
Definition histogram_total (gs : gmap text nat) : nat :=
  map_fold (fun _ n acc => (n + acc)%nat) 0%nat gs.

(** A printable ASCII character. *)
Definition printable (c : N) : bool := (32 <=? c) && (c <=? 126).

(** No widget pressed or filled. *)
Definition no_buttons : menu_buttons :=
  {| add_button := false; search_button := false; statistics_button := false;
     view_all_button := false; remove_button := false |}.

Definition blank_form : add_form :=
  {| title_input := []; author_input := []; year_input := 0;
     genre_input := []; read_input := false; submitted := false |}.

Definition idle : inputs :=
  {| i_menu := no_buttons; i_form := blank_form; i_remove_term := [];
     i_remove_click := None; i_search_type := Title; i_search_term := [];
     i_sort := Title_AZ; i_back := false |}.

(** The button of the menu that leads to a page. *)
Definition menu_choice (v : view) : menu_buttons :=
  {| add_button := match v with add_book => true | _ => false end;
     search_button := match v with search_books => true | _ => false end;
     statistics_button := match v with statistics_page => true | _ => false end;
     view_all_button := match v with view_all => true | _ => false end;
     remove_button := match v with remove_book => true | _ => false end |}.

(** The field that a search looks into. *)
Definition searched_field (ty : search_type) (b : Book) : text :=
  match ty with
  | Title => title b
  | Author => author b
  end.

(** The inputs of a run in which one menu button is pressed, and of a run
    in which Back to Menu is pressed. *)
Definition choose (v : view) : inputs :=
  {| i_menu := menu_choice v; i_form := blank_form; i_remove_term := [];
     i_remove_click := None; i_search_type := Title; i_search_term := [];
     i_sort := Title_AZ; i_back := false |}.

Definition go_back : inputs :=
  {| i_menu := no_buttons; i_form := blank_form; i_remove_term := [];
     i_remove_click := None; i_search_type := Title; i_search_term := [];
     i_sort := Title_AZ; i_back := true |}.

(** What one run does to the world: nothing but a change of page, an
    append with its save, or a removal with its save. *)
Inductive step (w : world) : run -> Prop :=
| step_show v ns :
    step w (finish (go_to v w) ns)
| step_add b d ns ns' :
    complete b = true ->
    save_library (library w ++ [b]) (storage w) = Return (d, ns') ->
    step w (finish {| library := library w ++ [b]; current_view := menu;
                      storage := d |} ns)
| step_remove l1 b l2 d ns ns' :
    library w = l1 ++ b :: l2 ->
    save_library (l1 ++ l2) (storage w) = Return (d, ns') ->
    step w (finish {| library := l1 ++ l2; current_view := current_view w;
                      storage := d |} ns).

(** The sort option with the same key and the other direction. *)
Definition opposite (o : sort_option) : sort_option :=
  match o with
  | Title_AZ => Title_ZA
  | Title_ZA => Title_AZ
  | Author_AZ => Author_ZA
  | Author_ZA => Author_AZ
  | Year_Newest => Year_Oldest
  | Year_Oldest => Year_Newest
  end.

(** * Properties *)

(** ** Examples *)

Example lower_Dune : lower (str "Dune") = str "dune".
Proof. reflexivity. Qed.

Example strip_padded : strip (str "  Emma ") = str "Emma".
Proof. reflexivity. Qed.

Example contains_er : contains (str "er") (lower (str "Herbert")) = true.
Proof. reflexivity. Qed.

Example dumps_small :
  dumps (JList [JDict [(str "year", JInt 1965); (str "read", JBool true)]; JInt (-7)])
  = [91; 123; 34; 121; 101; 97; 114; 34; 58; 32; 49; 57; 54; 53; 44; 32;
     34; 114; 101; 97; 100; 34; 58; 32; 116; 114; 117; 101; 125; 44; 32;
     45; 55; 93].
Proof. reflexivity. Qed.

Example loads_small :
  loads (str "[{ }, [1, -20, 3.5e2], null , true]")
  = Return (JList [JDict []; JList [JInt 1; JInt (-20); JFloat (str "3.5e2")];
                   JNull; JBool true]).
Proof. vm_compute. reflexivity. Qed.

Example loads_trailing : loads (str "[1, 2] x") = Raise (JSONDecodeError "Extra data").
Proof. vm_compute. reflexivity. Qed.

Example loads_escape :
  loads [34; 92; 117; 100; 56; 51; 100; 92; 117; 100; 101; 48; 48; 92; 110; 34]
  = Return (JStr [128512; 10]).
Proof. vm_compute. reflexivity. Qed.

(** ** Reading back what [dumps] wrote *)

Lemma unhex_hexdigit d : d < 16 -> unhex (hexdigit d) = Some d.
Proof.
  intros H. unfold unhex, hexdigit.
  destruct (d <? 10) eqn:E.
  - apply N.ltb_lt in E.
    replace (48 <=? 48 + d) with true by (symmetry; apply N.leb_le; lia).
    replace (48 + d <=? 57) with true by (symmetry; apply N.leb_le; lia).
    simpl. f_equal. lia.
  - apply N.ltb_ge in E.
    replace (48 <=? 87 + d) with true by (symmetry; apply N.leb_le; lia).
    replace (87 + d <=? 57) with false by (symmetry; apply N.leb_gt; lia).
    replace (97 <=? 87 + d) with true by (symmetry; apply N.leb_le; lia).
    replace (87 + d <=? 102) with true by (symmetry; apply N.leb_le; lia).
    simpl. f_equal. lia.
Qed.

Lemma unhex4_hex4 n :
  n < 65536 ->
  unhex4 (hexdigit (n / 4096 mod 16)) (hexdigit (n / 256 mod 16))
         (hexdigit (n / 16 mod 16)) (hexdigit (n mod 16)) = Some n.
Proof.
  intros H. unfold unhex4.
  rewrite !unhex_hexdigit by (apply N.mod_lt; discriminate).
  f_equal.
  apply N2Z.inj. rewrite !N2Z.inj_add, !N2Z.inj_mul, !N2Z.inj_mod, !N2Z.inj_div.
  apply N2Z.inj_lt in H. pose proof (N2Z.is_nonneg n) as Hn.
  revert H Hn. generalize (Z.of_N n). clear. intros z H Hn. simpl.
  Z.to_euclidean_division_equations. lia.
Qed.

Lemma surrogate_join a b :
  b < 1024 -> N.lor (N.shiftl a 10) b = a * 1024 + b.
Proof.
  intros Hb. rewrite N.shiftl_mul_pow2. change (2 ^ 10) with 1024.
  rewrite <- N.lxor_lor, <- N.add_nocarry_lxor; auto.
  all: apply N.bits_inj; intros i; rewrite N.land_spec, N.bits_0;
    destruct (N.lt_ge_cases i 10) as [Hi | Hi].
  all: try (rewrite (N.mul_pow2_bits_low a 10 i Hi); reflexivity).
  all: change 1024 with (2 ^ 10).
  all: try (rewrite (N.mul_pow2_bits_low a 10 i Hi); reflexivity).
  all: rewrite andb_comm; replace (N.testbit b i) with false; auto.
  all: symmetry; apply N.bits_above_log2.
  all: destruct (N.eq_dec b 0) as [-> | Hnz]; [simpl; lia |].
  all: apply N.lt_le_trans with 10; auto; apply N.log2_lt_pow2; lia.
Qed.

Ltac N_bool :=
  repeat match goal with
  | H : (_ =? _) = true |- _ => apply N.eqb_eq in H
  | H : (_ =? _) = false |- _ => apply N.eqb_neq in H
  | H : (_ <? _) = true |- _ => apply N.ltb_lt in H
  | H : (_ <? _) = false |- _ => apply N.ltb_ge in H
  | H : (_ <=? _) = true |- _ => apply N.leb_le in H
  | H : (_ <=? _) = false |- _ => apply N.leb_gt in H
  | H : (_ && _) = true |- _ => apply andb_true_iff in H; destruct H
  | H : (_ && _) = false |- _ => apply andb_false_iff in H
  | H : (_ || _) = true |- _ => apply orb_true_iff in H
  | H : (_ || _) = false |- _ => apply orb_false_iff in H; destruct H
  | H : negb _ = true |- _ => apply negb_true_iff in H
  | H : negb _ = false |- _ => apply negb_false_iff in H
  end.

Lemma Neqb_false a b : a <> b -> (a =? b) = false.
Proof. apply N.eqb_neq. Qed.
Lemma Nltb_true a b : a < b -> (a <? b) = true.
Proof. apply N.ltb_lt. Qed.
Lemma Nltb_false a b : b <= a -> (a <? b) = false.
Proof. apply N.ltb_ge. Qed.
Lemma Nleb_true a b : a <= b -> (a <=? b) = true.
Proof. apply N.leb_le. Qed.
Lemma Nleb_false a b : b < a -> (a <=? b) = false.
Proof. apply N.leb_gt. Qed.

Ltac N_tests :=
  repeat first
    [ rewrite Neqb_false by lia
    | rewrite N.eqb_refl
    | rewrite Nltb_true by lia
    | rewrite Nltb_false by lia
    | rewrite Nleb_true by lia
    | rewrite Nleb_false by lia ].

Lemma scanstring_cons c s1 :
  scanstring (c :: s1) =
      if c =? 34 then Return ([], s1)
      else if c =? 92 then
        match s1 with
        | [] => Raise unterminated
        | e :: s2 =>
          if e =? 117 then
            match s2 with
            | h1 :: h2 :: h3 :: h4 :: s3 =>
              match unhex4 h1 h2 h3 h4 with
              | None => Raise invalid_uXXXX
              | Some uni =>
                if is_high_surrogate uni && startswith [92; 117] s3 then
                  match s3 with
                  | _ :: _ :: l1 :: l2 :: l3 :: l4 :: s4 =>
                    match unhex4 l1 l2 l3 l4 with
                    | None => Raise invalid_uXXXX
                    | Some uni2 =>
                      if is_low_surrogate uni2 then
                        push_char
                          (65536 + N.lor (N.shiftl (uni - 55296) 10) (uni2 - 56320))
                          (scanstring s4)
                      else push_char uni (scanstring s3)
                    end
                  | _ => Raise invalid_uXXXX
                  end
                else push_char uni (scanstring s3)
              end
            | _ => Raise invalid_uXXXX
            end
          else
            match unescape e with
            | Some c' => push_char c' (scanstring s2)
            | None => Raise (JSONDecodeError "Invalid \escape")
            end
        end
      else if c <? 32 then Raise (JSONDecodeError "Invalid control character at")
      else push_char c (scanstring s1).
Proof. reflexivity. Qed.

(** One escaped character is read back as that character. *)
Lemma scanstring_escape_char c tail :
  is_scalar c = true ->
  scanstring (escape_char c ++ tail) = push_char c (scanstring tail).
Proof.
  intros Hc. unfold escape_char.
  destruct (N.eqb_spec c 34) as [-> | H34]; [reflexivity |].
  destruct (N.eqb_spec c 92) as [-> | H92]; [reflexivity |].
  destruct (N.eqb_spec c 10) as [-> | H10]; [reflexivity |].
  destruct (N.eqb_spec c 13) as [-> | H13]; [reflexivity |].
  destruct (N.eqb_spec c 9) as [-> | H9]; [reflexivity |].
  destruct (N.eqb_spec c 12) as [-> | H12]; [reflexivity |].
  destruct (N.eqb_spec c 8) as [-> | H8]; [reflexivity |].
  destruct ((32 <=? c) && (c <=? 126)) eqn:Hp.
  - N_bool. cbn [app]. rewrite scanstring_cons. N_tests. reflexivity.
  - destruct (c <? 65536) eqn:Hb.
    + N_bool. cbn [app hex4]. rewrite scanstring_cons.
      change (92 =? 34) with false. change (92 =? 92) with true.
      change (117 =? 117) with true. cbv iota.
      rewrite unhex4_hex4 by lia.
      assert (is_high_surrogate c = false) as ->.
      { unfold is_scalar in Hc. unfold is_high_surrogate. N_bool.
        destruct Hc as [Hc | Hc]; N_bool; apply andb_false_iff;
          [left | right]; N_tests; reflexivity. }
      reflexivity.
    + N_bool. unfold is_scalar in Hc. N_bool.
      destruct Hc as [Hc | Hc]; N_bool; [lia |].
      cbv zeta. set (n := c - 65536).
      assert (Hn : n < 1048576) by lia.
      assert (Hhi : n / 1024 < 1024) by (apply N.Div0.div_lt_upper_bound; lia).
      rewrite (N.mod_small (n / 1024)) by lia.
      assert (Hlo : n mod 1024 < 1024) by (apply N.mod_lt; discriminate).
      assert (Hc' : c = 65536 + (n / 1024 * 1024 + n mod 1024)).
      { pose proof (N.div_mod n 1024 ltac:(discriminate)). lia. }
      generalize dependent (n / 1024). generalize dependent (n mod 1024).
      intros lo Hlo hi Hhi Hc'.
      cbn [app hex4]. rewrite scanstring_cons.
      change (92 =? 34) with false. change (92 =? 92) with true.
      change (117 =? 117) with true. cbv iota.
      rewrite unhex4_hex4 by lia.
      assert (is_high_surrogate (55296 + hi) = true) as ->.
      { unfold is_high_surrogate. N_tests. reflexivity. }
      cbn [startswith andb]. change (92 =? 92) with true.
      change (117 =? 117) with true. cbv iota. cbn [andb].
      rewrite unhex4_hex4 by lia.
      assert (is_low_surrogate (56320 + lo) = true) as ->.
      { unfold is_low_surrogate. N_tests. reflexivity. }
      f_equal.
      replace (55296 + hi - 55296) with hi by lia.
      replace (56320 + lo - 56320) with lo by lia.
      rewrite surrogate_join by lia. lia.
Qed.

(** [scanstring] reads back the escaped form of a string of scalar values. *)
Lemma scanstring_dump s rest :
  unicode s = true ->
  scanstring (flat_map escape_char s ++ 34 :: rest) = Return (s, rest).
Proof.
  induction s as [| c s IH]; intros Hs.
  - reflexivity.
  - cbn [unicode forallb] in Hs. apply andb_true_iff in Hs as [Hc Hs].
    cbn [flat_map]. rewrite <- app_assoc, scanstring_escape_char by exact Hc.
    rewrite IH by exact Hs. reflexivity.
Qed.

Lemma closes_cons c rest :
  closes (c :: rest) = true -> c = 44 \/ c = 93 \/ c = 125.
Proof.
  unfold closes. rewrite !orb_true_iff, !N.eqb_eq. tauto.
Qed.

Lemma digit_closes c rest : closes (c :: rest) = true -> digit c = None.
Proof. intros H. apply closes_cons in H as [-> | [-> | ->]]; reflexivity. Qed.

Lemma digits_uint_text u rest :
  closes rest = true -> digits (uint_text u ++ rest) = (u, rest).
Proof.
  intros Hr. induction u; cbn [uint_text app digits]; try (cbn [digit]; simpl; rewrite IHu; reflexivity).
  destruct rest as [| c rest]; [reflexivity |].
  cbn [digits]. rewrite (digit_closes _ _ Hr). reflexivity.
Qed.

(** The decimal form of a positive number starts with a digit that is not
    zero. *)
Lemma to_uint_head p :
  exists c t, uint_text (Pos.to_uint p) = c :: t /\ 49 <= c <= 57.
Proof.
  pose proof (DecimalPos.Unsigned.to_uint_nonnil p) as Hnil.
  assert (Hnz : forall d, Pos.to_uint p <> Decimal.D0 d).
  { intros d Hd.
    pose proof (DecimalPos.Unsigned.to_of (Pos.to_uint p)) as H.
    rewrite DecimalPos.Unsigned.of_to in H. cbn [N.to_uint] in H.
    pose proof (DecimalPos.Unsigned.to_uint_nonzero p) as Hz.
    rewrite Hd in H. rewrite unorm_D0 in H.
    unfold Decimal.unorm in H.
    destruct (Decimal.nzhead d) eqn:E; try discriminate.
    - injection H as Hd'. apply Hz. rewrite Hd, <- Hd'. reflexivity.
    - exfalso. apply (nzhead_nonzero d u). rewrite E. congruence. }
  destruct (Pos.to_uint p) as [| d | d | d | d | d | d | d | d | d | d];
    cbn [uint_text]; try congruence; try (eexists _, _; split; [reflexivity | lia]).
Qed.

Lemma scan_frac_closes rest : closes rest = true -> scan_frac rest = ([], rest).
Proof.
  destruct rest as [| c rest]; [reflexivity |].
  intros H. apply closes_cons in H as [-> | [-> | ->]]; reflexivity.
Qed.

Lemma scan_exp_closes rest : closes rest = true -> scan_exp rest = ([], rest).
Proof.
  destruct rest as [| c rest]; [reflexivity |].
  intros H. apply closes_cons in H as [-> | [-> | ->]]; reflexivity.
Qed.

Lemma scan_integer_nonzero c t :
  49 <= c <= 57 ->
  scan_integer (c :: t) =
    match digits (c :: t) with
    | (Decimal.Nil, _) => None
    | (u, rest) => Some (Decimal.Pos u, rest)
    end
  /\ scan_integer (45 :: c :: t) =
    match digits (c :: t) with
    | (Decimal.Nil, _) => None
    | (u, rest) => Some (Decimal.Neg u, rest)
    end.
Proof.
  intros Hc. unfold scan_integer. change (45 =? 45) with true. cbv iota.
  N_tests. split; reflexivity.
Qed.

Lemma scan_integer_uint p rest :
  closes rest = true ->
  scan_integer (uint_text (Pos.to_uint p) ++ rest)
  = Some (Decimal.Pos (Pos.to_uint p), rest)
  /\ scan_integer (45 :: uint_text (Pos.to_uint p) ++ rest)
  = Some (Decimal.Neg (Pos.to_uint p), rest).
Proof.
  intros Hr. destruct (to_uint_head p) as (c & t & E & Hc).
  pose proof (digits_uint_text (Pos.to_uint p) rest Hr) as Hd.
  pose proof (DecimalPos.Unsigned.to_uint_nonnil p) as Hnil.
  rewrite E in *. cbn [app] in *.
  destruct (scan_integer_nonzero c (t ++ rest) Hc) as [-> ->].
  rewrite Hd. destruct (Pos.to_uint p); try congruence; split; reflexivity.
Qed.

(** [scan_number] reads back the decimal form of an integer. *)
Lemma scan_number_dump_int z rest :
  closes rest = true ->
  scan_number (dump_int z ++ rest) = Some (JInt z, rest).
Proof.
  intros Hr. unfold scan_number, dump_int.
  pose proof (DecimalZ.of_to z) as Hz.
  destruct z as [| p | p]; cbn [Z.to_int] in *.
  - cbn. rewrite scan_frac_closes, scan_exp_closes by exact Hr. reflexivity.
  - rewrite (proj1 (scan_integer_uint p rest Hr)).
    rewrite scan_frac_closes, scan_exp_closes by exact Hr. rewrite Hz. reflexivity.
  - cbn [app]. rewrite (proj2 (scan_integer_uint p rest Hr)).
    rewrite scan_frac_closes, scan_exp_closes by exact Hr. rewrite Hz. reflexivity.
Qed.

Lemma dict_set_fresh k v d :
  k ∉ List.map fst d -> dict_set k v d = d ++ [(k, v)].
Proof.
  induction d as [| [k' v'] d IH]; intros Hk; cbn [dict_set app].
  - reflexivity.
  - cbn [List.map fst] in Hk. apply not_elem_of_cons in Hk as [Hne Hk].
    destruct (decide (k' = k)) as [-> | _]; [congruence |].
    rewrite IH by exact Hk. reflexivity.
Qed.

Lemma dict_fold_distinct l :
  forall acc, NoDup (List.map fst (acc ++ l)) ->
  fold_left (fun d kv => dict_set (fst kv) (snd kv) d) l acc = acc ++ l.
Proof.
  induction l as [| [k v] l IH]; intros acc Hnd; cbn [fold_left].
  - rewrite app_nil_r. reflexivity.
  - cbn [fst snd]. rewrite dict_set_fresh.
    + rewrite IH, <- app_assoc; [reflexivity |].
      rewrite <- app_assoc. exact Hnd.
    + rewrite List.map_app in Hnd. cbn [List.map fst] in Hnd.
      apply NoDup_app in Hnd as (_ & Hnd & _).
      intros Hin. apply (Hnd k Hin). left.
Qed.

(** [dict] keeps a list of items with distinct keys as it is. *)
Lemma dict_distinct l : NoDup (List.map fst l) -> dict l = l.
Proof. intros H. unfold dict. rewrite dict_fold_distinct; auto. Qed.

Lemma opens_not_ws c : opens c -> is_ws c = false.
Proof.
  unfold opens, is_ws. intros H.
  repeat (apply orb_false_iff; split); apply N.eqb_neq; lia.
Qed.

Lemma dump_int_head z :
  exists c t, dump_int z = c :: t /\ (c = 45 \/ 48 <= c <= 57).
Proof.
  unfold dump_int. destruct z as [| p | p]; cbn [Z.to_int].
  - exists 48, []. split; [reflexivity | lia].
  - destruct (to_uint_head p) as (c & t & -> & Hc). exists c, t.
    split; [reflexivity | lia].
  - eexists _, _. split; [reflexivity | lia].
Qed.

Lemma dumps_head v :
  jsonable v = true -> exists c t, dumps v = c :: t /\ opens c.
Proof.
  unfold opens.
  destruct v as [| [] | z | l | s | items | items]; cbn [jsonable dumps]; intros H;
    try discriminate;
    try (eexists _, _; split; [reflexivity | lia]).
  - exists 110, (str "ull"). split; [reflexivity | lia].
  - exists 116, (str "rue"). split; [reflexivity | lia].
  - exists 102, (str "alse"). split; [reflexivity | lia].
  - destruct (dump_int_head z) as (c & t & -> & Hc).
    exists c, t. split; [reflexivity | lia].
Qed.

Lemma skip_ws_opens c t : opens c -> skip_ws (c :: t) = c :: t.
Proof. intros H. cbn [skip_ws]. rewrite opens_not_ws by exact H. reflexivity. Qed.

Lemma skip_ws_dumps v rest :
  jsonable v = true -> skip_ws (dumps v ++ rest) = dumps v ++ rest.
Proof.
  intros H. destruct (dumps_head v H) as (c & t & -> & Hc).
  apply skip_ws_opens. exact Hc.
Qed.

Lemma join_comma_cons p q ps :
  join_comma (p :: q :: ps) = p ++ 44 :: 32 :: join_comma (q :: ps).
Proof. reflexivity. Qed.

Lemma join_dumps_head v items :
  jsonable v = true ->
  exists c t, join_comma (List.map dumps (v :: items)) = c :: t /\ opens c.
Proof.
  intros Hv. destruct (dumps_head v Hv) as (c & t & E & Hc).
  destruct items as [| v' items].
  - exists c, t. split; [exact E | exact Hc].
  - cbn [List.map]. rewrite join_comma_cons, E.
    eexists _, _. split; [reflexivity | exact Hc].
Qed.

Lemma array_loop_step scan fuel acc s v cont :
  scan s = Return (v, cont) ->
  array_loop scan (S fuel) acc s =
    match skip_ws cont with
    | c :: s2 =>
      if c =? 93 then Return (JList (acc ++ [v]), s2)
      else if c =? 44 then array_loop scan fuel (acc ++ [v]) (skip_ws s2)
      else Raise expecting_comma
    | [] => Raise expecting_comma
    end.
Proof. intros H. cbn [array_loop]. rewrite H. reflexivity. Qed.

(** The loop of [JSONArray] reads back the items of an encoded list,
    given a scanner that reads back each of them. *)
Lemma array_loop_dumps scan items :
  Forall (scans scan) items ->
  Forall (fun v => jsonable v = true) items ->
  items <> [] ->
  forall fuel acc rest,
    (length items <= fuel)%nat ->
    array_loop scan fuel acc (join_comma (List.map dumps items) ++ 93 :: rest)
    = Return (JList (acc ++ items), rest).
Proof.
  induction items as [| v items IH]; intros Hs Hj Hne fuel acc rest Hfuel;
    [congruence |].
  apply Forall_cons in Hs as [Hv Hs]. apply Forall_cons in Hj as [Jv Hj].
  destruct fuel as [| fuel]; [cbn [length] in Hfuel; lia |].
  destruct items as [| v' items].
  - cbn [List.map join_comma].
    rewrite (array_loop_step scan fuel acc _ v (93 :: rest)) by (apply Hv; reflexivity).
    reflexivity.
  - cbn [List.map]. rewrite join_comma_cons, <- app_assoc. cbn [app].
    erewrite array_loop_step by (apply Hv; reflexivity).
    change (skip_ws (44 :: 32 :: ?x)) with (44 :: 32 :: x).
    cbv iota. change (44 =? 93) with false. change (44 =? 44) with true. cbv iota.
    change (skip_ws (32 :: ?x)) with (skip_ws x).
    assert (Hsk : forall x, skip_ws (join_comma (dumps v' :: List.map dumps items) ++ x)
                       = join_comma (dumps v' :: List.map dumps items) ++ x).
    { intros x. apply Forall_cons in Hj as [Jv' _].
      destruct (join_dumps_head v' items Jv') as (c & t & E & Hc).
      cbn [List.map] in E. rewrite E. apply skip_ws_opens. exact Hc. }
    rewrite Hsk. cbn [List.map] in IH. rewrite IH; auto.
    + rewrite <- app_assoc. reflexivity.
    + cbn [length] in *. lia.
Qed.

Lemma pair_text_tail kv : pair_text kv = 34 :: pair_tail kv.
Proof.
  unfold pair_text, pair_tail, dump_str. cbn [app].
  rewrite <- app_assoc. reflexivity.
Qed.

Lemma join_pairs kv more :
  join_comma (List.map (fun kv => dump_str (fst kv) ++ 58 :: 32 :: dumps (snd kv)) (kv :: more))
  = 34 :: pairs_tail kv more.
Proof.
  revert kv. induction more as [| kv' more IH]; intros kv.
  - apply pair_text_tail.
  - cbn [List.map] in *. rewrite join_comma_cons, IH.
    fold (pair_text kv). rewrite pair_text_tail. reflexivity.
Qed.

Lemma object_loop_step scan fuel acc k v cont :
  unicode k = true ->
  jsonable v = true ->
  scan (dumps v ++ cont) = Return (v, cont) ->
  object_loop scan (S fuel) acc (pair_tail (k, v) ++ cont) =
    match skip_ws cont with
    | d :: s4 =>
      if d =? 125 then Return (JDict (dict (acc ++ [(k, v)])), s4)
      else if d =? 44 then
        match skip_ws s4 with
        | q :: s5 =>
          if q =? 34 then object_loop scan fuel (acc ++ [(k, v)]) s5
          else Raise expecting_name
        | [] => Raise expecting_name
        end
      else Raise expecting_comma
    | [] => Raise expecting_comma
    end.
Proof.
  intros Hk Hv Hs. unfold pair_tail. cbn [fst snd object_loop].
  rewrite <- app_assoc. cbn [app]. rewrite scanstring_dump by exact Hk.
  cbn [mbind result_bind].
  change (skip_ws (58 :: ?y)) with (58 :: y). cbv iota.
  change (58 =? 58) with true. cbv iota.
  change (skip_ws (32 :: ?y)) with (skip_ws y).
  rewrite skip_ws_dumps by exact Hv. rewrite Hs. reflexivity.
Qed.

(** The loop of [JSONObject] reads back the items of an encoded dict. *)
Lemma object_loop_dumps scan more :
  forall k v fuel acc rest,
    Forall (fun kv => scans scan (snd kv)) ((k, v) :: more) ->
    Forall (fun kv => unicode (fst kv) && jsonable (snd kv) = true) ((k, v) :: more) ->
    (length more < fuel)%nat ->
    object_loop scan fuel acc (pairs_tail (k, v) more ++ 125 :: rest)
    = Return (JDict (dict (acc ++ (k, v) :: more)), rest).
Proof.
  induction more as [| [k' v'] more IH]; intros k v fuel acc rest Hs Hj Hfuel;
    apply Forall_cons in Hs as [Hv Hs]; apply Forall_cons in Hj as [Jv Hj];
    cbn [fst snd] in Hv, Jv; apply andb_true_iff in Jv as [Jk Jv];
    (destruct fuel as [| fuel]; [cbn [length] in Hfuel; lia |]);
    cbn [pairs_tail].
  - rewrite (object_loop_step scan fuel acc k v (125 :: rest) Jk Jv)
      by (apply Hv; reflexivity).
    reflexivity.
  - rewrite <- app_assoc. cbn [app].
    rewrite (object_loop_step scan fuel acc k v _ Jk Jv)
      by (apply Hv; reflexivity).
    change (skip_ws (44 :: ?y)) with (44 :: y). cbv iota.
    change (44 =? 125) with false. change (44 =? 44) with true. cbv iota.
    change (skip_ws (32 :: 34 :: ?y)) with (34 :: y). cbv iota.
    change (34 =? 34) with true. cbv iota.
    rewrite IH.
    + rewrite <- app_assoc. reflexivity.
    + exact Hs.
    + exact Hj.
    + cbn [length] in Hfuel. lia.
Qed.

Lemma scan_once_cons depth c s1 :
  scan_once (S depth) (c :: s1) =
    if c =? 34 then '(x, rest) ← scanstring s1; Return (JStr x, rest)
    else if c =? 123 then JSONObject (scan_once depth) s1
    else if c =? 91 then JSONArray (scan_once depth) s1
    else if startswith (str "null") (c :: s1) then Return (JNull, skipn 4 (c :: s1))
    else if startswith (str "true") (c :: s1) then Return (JBool true, skipn 4 (c :: s1))
    else if startswith (str "false") (c :: s1) then Return (JBool false, skipn 5 (c :: s1))
    else
      match scan_number (c :: s1) with
      | Some r => Return r
      | None =>
        if startswith (str "NaN") (c :: s1)
        then Return (JFloat (str "NaN"), skipn 3 (c :: s1))
        else if startswith (str "Infinity") (c :: s1)
        then Return (JFloat (str "Infinity"), skipn 8 (c :: s1))
        else if startswith (str "-Infinity") (c :: s1)
        then Return (JFloat (str "-Infinity"), skipn 9 (c :: s1))
        else Raise expecting_value
      end.
Proof. reflexivity. Qed.

Lemma max_depth_le {A} (f : A -> nat) (l : list A) (d : nat) :
  (fold_right (fun x n => Nat.max (f x) n) 0%nat l <= d)%nat ->
  Forall (fun x => (f x <= d)%nat) l.
Proof.
  induction l as [| x l IH]; cbn [fold_right]; intros H.
  - constructor.
  - constructor; [lia | apply IH; lia].
Qed.

Lemma length_join_dumps items :
  Forall (fun v => jsonable v = true) items ->
  (length items <= length (join_comma (List.map dumps items)))%nat.
Proof.
  induction items as [| v items IH]; intros H; [reflexivity |].
  apply Forall_cons in H as [Hv H].
  destruct (dumps_head v Hv) as (c & t & E & _).
  destruct items as [| v' items].
  - cbn [List.map join_comma]. rewrite E. cbn [length]. lia.
  - cbn [List.map]. rewrite join_comma_cons, length_app. cbn [length].
    specialize (IH H). cbn [List.map length] in IH. lia.
Qed.

Lemma length_pairs_tail kv more :
  (length more < length (pairs_tail kv more))%nat.
Proof.
  revert kv. induction more as [| kv' more IH]; intros kv; cbn [pairs_tail].
  - unfold pair_tail. rewrite length_app. cbn [length]. lia.
  - rewrite length_app. cbn [length]. specialize (IH kv'). lia.
Qed.

(** [scan_once] reads back an encoded value, with enough depth for its
    nesting and whatever closes it. *)
Lemma scan_once_dumps v :
  jsonable v = true ->
  forall d rest,
    (depth v <= d)%nat -> closes rest = true ->
    scan_once d (dumps v ++ rest) = Return (v, rest).
Proof.
  induction v as [| b | z | l | s | items IH | items IH] using json_nested_ind;
    intros Hj d rest Hd Hr;
    (destruct d as [| d]; [cbn [depth] in Hd; lia |]).
  - reflexivity.
  - destruct b; reflexivity.
  - cbn [dumps]. destruct (dump_int_head z) as (c & t & E & Hc).
    pose proof (scan_number_dump_int z rest Hr) as Hn. rewrite E in *.
    cbn [app] in *. rewrite scan_once_cons, Hn.
    change (str "null") with [110; 117; 108; 108].
    change (str "true") with [116; 114; 117; 101].
    change (str "false") with [102; 97; 108; 115; 101].
    cbn [startswith]. destruct Hc as [-> | Hc]; [reflexivity |].
    N_tests. reflexivity.
  - discriminate.
  - cbn [dumps jsonable] in *. unfold dump_str. cbn [app].
    rewrite scan_once_cons. change (34 =? 34) with true. cbv iota.
    rewrite <- app_assoc. cbn [app]. rewrite scanstring_dump by exact Hj.
    reflexivity.
  - cbn [dumps jsonable depth] in *. cbn [app]. rewrite scan_once_cons.
    change (91 =? 34) with false. change (91 =? 123) with false.
    change (91 =? 91) with true. cbv iota.
    rewrite <- app_assoc. cbn [app]. unfold JSONArray.
    rewrite List.forallb_forall, <- List.Forall_forall in Hj.
    destruct items as [| v items]; [reflexivity |].
    destruct (join_dumps_head v items) as (c & t & E & Hc).
    { apply List.Forall_inv in Hj. exact Hj. }
    assert (Hsk : skip_ws (join_comma (List.map dumps (v :: items)) ++ 93 :: rest)
                  = join_comma (List.map dumps (v :: items)) ++ 93 :: rest).
    { rewrite E. apply skip_ws_opens. exact Hc. }
    rewrite Hsk. rewrite E at 1. cbn [app].
    replace (c =? 93) with false
      by (symmetry; apply N.eqb_neq; unfold opens in Hc; lia).
    rewrite array_loop_dumps; auto.
    + apply le_S_n in Hd. apply max_depth_le in Hd.
      rewrite List.Forall_forall in *. intros x Hx rest' Hr'.
      apply IH; [exact Hx | apply Hj; exact Hx | apply Hd; exact Hx | exact Hr'].
    + rewrite length_app. pose proof (length_join_dumps (v :: items) Hj). lia.
  - cbn [dumps jsonable depth] in *. cbn [app]. rewrite scan_once_cons.
    change (123 =? 34) with false. change (123 =? 123) with true. cbv iota.
    rewrite <- app_assoc. cbn [app]. unfold JSONObject.
    apply andb_true_iff in Hj as [Hj Hnd]. apply bool_decide_eq_true in Hnd.
    rewrite List.forallb_forall, <- List.Forall_forall in Hj.
    destruct items as [| [k v] items]; [reflexivity |].
    rewrite join_pairs. cbn [app].
    change (skip_ws (34 :: ?y)) with (34 :: y). cbv iota.
    change (34 =? 125) with false. change (34 =? 34) with true. cbv iota.
    rewrite object_loop_dumps.
    + cbn [app]. rewrite dict_distinct by exact Hnd. reflexivity.
    + apply le_S_n in Hd. apply max_depth_le in Hd.
      rewrite List.Forall_forall in *. intros x Hx rest' Hr'.
      apply IH; [exact Hx | | apply Hd; exact Hx | exact Hr'].
      apply Hj in Hx. apply andb_true_iff in Hx. tauto.
    + exact Hj.
    + rewrite length_app. pose proof (length_pairs_tail (k, v) items). lia.
Qed.

(** The text of a value is at least as long as the value is deep, so the
    depth that [loads] allows is enough. *)
Lemma depth_le_length v :
  jsonable v = true -> (depth v <= length (dumps v))%nat.
Proof.
  induction v as [| b | z | l | s | items IH | items IH] using json_nested_ind;
    intros Hj.
  - cbn. lia.
  - destruct b; cbn; lia.
  - cbn [depth dumps]. destruct (dump_int_head z) as (c & t & -> & _).
    cbn [length]. lia.
  - discriminate.
  - cbn [depth dumps]. unfold dump_str. cbn [length]. lia.
  - cbn [depth dumps jsonable] in *. cbn [length]. rewrite length_app.
    rewrite List.forallb_forall, <- List.Forall_forall in Hj.
    enough (fold_right (fun v n => Nat.max (depth v) n) 0%nat items
            <= length (join_comma (List.map dumps items)))%nat by lia.
    clear -IH Hj. induction items as [| v items IHi]; [cbn; lia |].
    apply List.Forall_cons_iff in IH as [Hv IH].
    apply List.Forall_cons_iff in Hj as [Jv Hj].
    specialize (IHi IH Hj). specialize (Hv Jv). cbn [fold_right].
    destruct items as [| v' items].
    + cbn [List.map join_comma fold_right] in *. lia.
    + cbn [List.map] in *. rewrite join_comma_cons, length_app. cbn [length]. lia.
  - cbn [depth dumps jsonable] in *. cbn [length]. rewrite length_app.
    apply andb_true_iff in Hj as [Hj _].
    rewrite List.forallb_forall, <- List.Forall_forall in Hj.
    enough (fold_right (fun kv n => Nat.max (depth (snd kv)) n) 0%nat items
            <= length (join_comma (List.map pair_text items)))%nat by (unfold pair_text in *; lia).
    clear -IH Hj. induction items as [| [k v] items IHi]; [cbn; lia |].
    apply List.Forall_cons_iff in IH as [Hv IH].
    apply List.Forall_cons_iff in Hj as [Jv Hj].
    cbn [fst snd] in Hv, Jv. apply andb_true_iff in Jv as [_ Jv].
    specialize (IHi IH Hj). specialize (Hv Jv). cbn [fold_right snd].
    assert (length (dumps v) <= length (pair_text (k, v)))%nat.
    { unfold pair_text. rewrite length_app. cbn [length snd]. lia. }
    destruct items as [| kv' items].
    + cbn [List.map join_comma fold_right] in *. lia.
    + cbn [List.map] in *. rewrite join_comma_cons, length_app. cbn [length]. lia.
Qed.

(** The round trip of the [json] module. *)
Lemma loads_dumps v : jsonable v = true -> loads (dumps v) = Return v.
Proof.
  intros Hj. unfold loads.
  destruct (dumps_head v Hj) as (c & t & E & Hc).
  assert (startswith [65279] (dumps v) = false) as ->.
  { rewrite E. cbn [startswith]. unfold opens in Hc.
    rewrite Neqb_false by lia. reflexivity. }
  pose proof (skip_ws_dumps v [] Hj) as Hsk. rewrite app_nil_r in Hsk.
  rewrite Hsk.
  pose proof (scan_once_dumps v Hj (S (length (dumps v))) []) as Hs.
  rewrite app_nil_r in Hs. rewrite Hs.
  - reflexivity.
  - pose proof (depth_le_length v Hj). lia.
  - reflexivity.
Qed.

(** ** Facts on [sorted] *)

(** [sorted] for any key function and any [<] that is asymmetric and
    whose negation is transitive: the order on strings and the order on
    integers are such. *)
Section SortFacts.
Context {A K : Type} `{EqDecision K}.
Variable lt : K -> K -> bool.
Variable key : A -> K.
Hypothesis lt_asym : forall a b, lt a b = true -> lt b a = false.
Hypothesis le_trans :
  forall a b c, lt b a = false -> lt c b = false -> lt c a = false.


Lemma insert_perm x l : Permutation (x :: l) (insert lt key x l).
Proof.
  induction l as [| y l IH]; cbn [insert]; [reflexivity |].
  destruct (lt (key y) (key x)); [| reflexivity].
  rewrite perm_swap. apply perm_skip. exact IH.
Qed.

Lemma stable_sort_perm l : Permutation l (stable_sort lt key l).
Proof.
  induction l as [| x l IH]; cbn [stable_sort]; [reflexivity |].
  rewrite <- insert_perm. apply perm_skip. exact IH.
Qed.

Lemma insert_sorted x l :
  StronglySorted (key_le lt key) l -> StronglySorted (key_le lt key) (insert lt key x l).
Proof.
  induction 1 as [| y l Hl IH Hy]; cbn [insert].
  - repeat constructor.
  - destruct (lt (key y) (key x)) eqn:E.
    + constructor; [exact IH |].
      rewrite List.Forall_forall in *. intros z Hz.
      apply (Permutation_in _ (Permutation_sym (insert_perm x l))) in Hz.
      destruct Hz as [<- | Hz]; [apply lt_asym; exact E | apply Hy; exact Hz].
    + constructor; [constructor; assumption |].
      constructor; [exact E |].
      rewrite List.Forall_forall in *. intros z Hz.
      unfold key_le in *. apply (le_trans _ (key y)); [exact E | apply Hy; exact Hz].
Qed.

Lemma stable_sort_sorted l : StronglySorted (key_le lt key) (stable_sort lt key l).
Proof.
  induction l as [| x l IH]; cbn [stable_sort]; [constructor |].
  apply insert_sorted. exact IH.
Qed.









(** A list in order is a fixed point of the sort. *)
Lemma stable_sort_fixed l :
  StronglySorted (key_le lt key) l -> stable_sort lt key l = l.
Proof.
  induction 1 as [| x l Hl IH Hx]; cbn [stable_sort]; [reflexivity |].
  rewrite IH. destruct l as [| y l]; [reflexivity |].
  cbn [insert]. apply List.Forall_inv in Hx. unfold key_le in Hx.
  rewrite Hx. reflexivity.
Qed.

Lemma stable_sort_idempotent l :
  stable_sort lt key (stable_sort lt key l) = stable_sort lt key l.
Proof. apply stable_sort_fixed, stable_sort_sorted. Qed.

End SortFacts.

(** The order on strings. *)
Lemma text_ltb_asym a : forall b, Text.ltb a b = true -> Text.ltb b a = false.
Proof.
  induction a as [| x a IH]; intros [| y b]; cbn [Text.ltb]; try congruence.
  rewrite orb_true_iff, orb_false_iff, andb_true_iff, andb_false_iff.
  rewrite !N.ltb_lt, !N.eqb_eq, !N.ltb_ge, !N.eqb_neq.
  intros [H | [H1 H2]].
  - split; [lia | left; lia].
  - split; [lia | right; apply IH; exact H2].
Qed.

Lemma text_le_trans a :
  forall b c, Text.ltb b a = false -> Text.ltb c b = false -> Text.ltb c a = false.
Proof.
  induction a as [| x a IH]; intros [| y b] [| z c]; cbn [Text.ltb];
    try congruence; try reflexivity.
  rewrite !orb_false_iff, !andb_false_iff.
  rewrite !N.ltb_ge, !N.eqb_neq.
  intros [H1 H2] [H3 H4]. split; [lia |].
  destruct (N.eq_dec z x) as [-> | Hne]; [right | left; exact Hne].
  assert (y = x) by lia. subst y.
  destruct H2 as [H2 | H2]; [congruence |].
  destruct H4 as [H4 | H4]; [congruence |].
  apply (IH b c); assumption.
Qed.

Lemma Z_ltb_asym (a b : Z) : (a <? b)%Z = true -> (b <? a)%Z = false.
Proof. rewrite Z.ltb_lt, Z.ltb_ge. lia. Qed.

Lemma Z_le_trans (a b c : Z) :
  (b <? a)%Z = false -> (c <? b)%Z = false -> (c <? a)%Z = false.
Proof. rewrite !Z.ltb_ge. lia. Qed.

(** ** The store *)

Lemma jsonable_book b : unicode_book b = true -> jsonable (book_json b) = true.
Proof.
  unfold unicode_book. rewrite !andb_true_iff. intros [[Ht Ha] Hg].
  cbn [book_json jsonable forallb fst snd]. rewrite Ht, Ha, Hg. reflexivity.
Qed.

Lemma jsonable_catalog lib :
  forallb unicode_book lib = true -> jsonable (catalog_json lib) = true.
Proof.
  intros H. cbn [catalog_json jsonable].
  induction lib as [| b lib IH]; [reflexivity |].
  cbn [forallb List.map] in *. apply andb_true_iff in H as [Hb H].
  rewrite jsonable_book by exact Hb. apply IH. exact H.
Qed.

(** [save_library] catches whatever the write raises. *)
Lemma save_library_returns lib d :
  exists d' ns, save_library lib d = Return (d', ns).
Proof.
  unfold save_library, write_file. destruct (writable d); [eexists _, _; reflexivity |].
  destruct (short_write d); eexists _, _; reflexivity.
Qed.

(** A write that succeeds leaves the text in the file. *)
Lemma save_library_writable lib d :
  writable d = true ->
  save_library lib d = Return (set_file (dumps (catalog_json lib)) d, []).
Proof. intros H. unfold save_library, write_file. rewrite H. reflexivity. Qed.

(** A file that [os.stat] finds exists. *)
Lemma path_exists_file d t : file d = Some t -> path_exists d = Return true.
Proof. intros H. unfold path_exists. rewrite H. reflexivity. Qed.

(** [load_library] on a file that exists. *)
Lemma load_library_file d t :
  file d = Some t ->
  load_library d
  = match read_file d ≫= loads with
    | Return v => Return (v, [])
    | Raise e => Return (JList [], [error_loading e])
    end.
Proof.
  intros H. unfold load_library. rewrite (path_exists_file d t H).
  cbn [mbind result_bind negb].
  destruct (read_file d) as [t' |]; cbn [mbind result_bind try_except];
    [| reflexivity].
  destruct (loads t'); reflexivity.
Qed.

(** Saving, then loading from the same location. *)
Lemma save_then_load lib d :
  forallb unicode_book lib = true ->
  writable d = true -> readable d = true ->
  exists d',
    save_library lib d = Return (d', [])
    /\ load_library d' = Return (catalog_json lib, []).
Proof.
  intros Hu Hw Hr. rewrite save_library_writable by exact Hw.
  eexists. split; [reflexivity |].
  rewrite (load_library_file _ (dumps (catalog_json lib))) by reflexivity.
  unfold read_file. cbn [set_file file readable]. rewrite Hr.
  cbn [mbind result_bind].
  rewrite loads_dumps by (apply jsonable_catalog; exact Hu). reflexivity.
Qed.

Lemma unicode_catalog_app lib b :
  forallb unicode_book lib = true -> unicode_book b = true ->
  forallb unicode_book (lib ++ [b]) = true.
Proof.
  intros Hl Hb. rewrite forallb_app, Hl. cbn [forallb]. rewrite Hb. reflexivity.
Qed.

(** C1.  On a storage location that can be written and read, saving a
    catalog of Unicode text and loading it again gives the same catalog;
    and when the add form is submitted with a title and an author that
    are not empty, the catalog loaded afterwards is the former catalog
    followed by exactly the new book. *)
Theorem save_load_round_trip (lib : list Book) (d : disk) :
  forallb unicode_book lib = true ->
  writable d = true ->
  readable d = true ->
  (exists d',
      save_library lib d = Return (d', [])
      /\ load_library d' = Return (catalog_json lib, []))
  /\ (forall (f : add_form) (back : bool) (v : view),
        submitted f = true ->
        nonempty (title (new_book f)) = true ->
        nonempty (author (new_book f)) = true ->
        unicode_book (new_book f) = true ->
        let r := add_book_view f back
                   {| library := lib; current_view := v; storage := d |} in
        raised r = None
        /\ library (after r) = lib ++ [new_book f]
        /\ load_library (storage (after r))
           = Return (JList (List.map book_json lib ++ [book_json (new_book f)]), [])).
Proof.
  intros Hu Hw Hr. split; [apply save_then_load; assumption |].
  intros f back v Hs Ht Ha Hb r. subst r. unfold add_book_view.
  rewrite Hs, Ht, Ha. cbn [negb orb library storage].
  destruct (save_then_load (lib ++ [new_book f]) d) as (d' & -> & Hl);
    [apply unicode_catalog_app; assumption | assumption | assumption |].
  cbn [finish after raised library storage]. rewrite Hl.
  unfold catalog_json. rewrite List.map_app. auto.
Qed.

(** The round trip at work: Dune is added to a catalog that holds Emma. *)
Lemma save_load_round_trip_witness :
  load_library
    (storage (after (add_book_view dune_form false
       {| library := [emma]; current_view := add_book; storage := fresh_disk |})))
  = Return (JList [book_json emma; book_json dune], []).
Proof.
  destruct (save_load_round_trip [emma] fresh_disk eq_refl eq_refl eq_refl)
    as [_ H].
  destruct (H dune_form false add_book eq_refl eq_refl eq_refl eq_refl)
    as (_ & _ & Hl).
  exact Hl.
Defined.

(** C2.  The claim holds of every state of the file but one kind, where
    the code lets an exception out: the test for the file on line 21
    stands before the [try], and [Path.exists] raises again an error of
    [os.stat] that does not mean that the file is missing.  On a
    directory that may not be searched [load_library] raises
    [PermissionError].  In every other state it returns: the empty list
    without a notice when there is no file, the empty list with the
    error reported when reading or decoding fails, and the decoded value
    otherwise. *)
Theorem load_library_propagates :
  load_library locked_disk = Raise (OSError EACCES)
  /\ forall d : disk,
       (forall e, path_exists d = Raise e -> load_library d = Raise e)
       /\ (path_exists d = Return false -> load_library d = Return (JList [], []))
       /\ (forall e,
             path_exists d = Return true -> (read_file d ≫= loads) = Raise e ->
             load_library d = Return (JList [], [error_loading e]))
       /\ (forall v,
             path_exists d = Return true -> (read_file d ≫= loads) = Return v ->
             load_library d = Return (v, []))
       /\ ((exists e, load_library d = Raise e)
           <-> file d = None /\ ignore_error (stat_errno d) = false).
Proof.
  split; [reflexivity |]. intros d.
  split; [intros e H; unfold load_library; rewrite H; reflexivity |].
  split; [intros H; unfold load_library; rewrite H; reflexivity |].
  destruct (file d) as [t |] eqn:Ef.
  - rewrite (load_library_file d t Ef).
    split; [intros e _ ->; reflexivity |].
    split; [intros v _ ->; reflexivity |]. split.
    + intros [e H]. destruct (read_file d ≫= loads); discriminate.
    + intros [H _]. discriminate.
  - unfold load_library, path_exists. rewrite Ef.
    destruct (ignore_error (stat_errno d)); cbn [mbind result_bind negb].
    + split; [discriminate |]. split; [discriminate |]. split.
      * intros [e H]. discriminate.
      * intros [_ H]. discriminate.
    + split; [discriminate |]. split; [discriminate |]. split; eauto.
Qed.

(** ** Statistics *)

Lemma occurrences_cons g b lib :
  occurrences g (b :: lib)
  = ((if decide (genre_label b = g) then 1 else 0) + occurrences g lib)%nat.
Proof.
  unfold occurrences. cbn [List.filter].
  destruct (decide (genre_label b = g)) as [E | E].
  - rewrite bool_decide_eq_true_2 by exact E. reflexivity.
  - rewrite bool_decide_eq_false_2 by exact E. reflexivity.
Qed.

(** The loop over the books adds, under each label, the number of books
    that carry it. *)
Lemma genre_loop lib :
  forall (gs : gmap text nat) (g : text),
    fold_left count_genre lib gs !! g
    = if decide (occurrences g lib = 0%nat) then gs !! g
      else Some (default 0%nat (gs !! g) + occurrences g lib)%nat.
Proof.
  induction lib as [| b lib IH]; intros gs g; [reflexivity |].
  cbn [fold_left]. rewrite IH, occurrences_cons. unfold count_genre.
  destruct (decide (genre_label b = g)) as [-> | Hne].
  - rewrite lookup_insert_eq. cbn [default].
    destruct (decide (occurrences g lib = 0%nat)) as [-> | Hn].
    + rewrite decide_False by lia. f_equal; unfold id; lia.
    + rewrite decide_False by lia. f_equal; unfold id; lia.
  - rewrite lookup_insert_ne by exact Hne. cbn [Nat.add]. reflexivity.
Qed.

Lemma genres_lookup lib g :
  genres (statistics lib) !! g
  = if decide (occurrences g lib = 0%nat) then None
    else Some (occurrences g lib).
Proof.
  cbn [statistics genres]. rewrite genre_loop, lookup_empty. reflexivity.
Qed.



Example statistics_sample :
  let s := statistics [dune; emma] in
  total_books s = 2%nat /\ read_count s = 1%nat
  /\ (percentage_read s == 50)%Q
  /\ genres s = {[ str "Sci-Fi" := 1%nat; str "Classic" := 1%nat ]}.
Proof.
  cbn zeta. split; [reflexivity |]. split; [reflexivity |]. split; [reflexivity |].
  apply map_eq. intros g. rewrite genres_lookup.
  destruct (decide (g = str "Sci-Fi")) as [-> | H1]; [reflexivity |].
  destruct (decide (g = str "Classic")) as [-> | H2]; [reflexivity |].
  rewrite lookup_insert_ne, lookup_singleton_ne by congruence.
  rewrite !occurrences_cons.
  rewrite (decide_False (P := genre_label dune = g))
    by (intros <-; apply H1; reflexivity).
  rewrite (decide_False (P := genre_label emma = g))
    by (intros <-; apply H2; reflexivity).
  reflexivity.
Qed.

(** ** Removing and adding *)

Lemma remove_first_found (b : Book) lib :
  In b lib ->
  exists l1 l2,
    lib = l1 ++ b :: l2 /\ ~ In b l1 /\ remove_first b lib = Some (l1 ++ l2).
Proof.
  induction lib as [| y lib IH]; intros Hin; [destruct Hin |].
  cbn [remove_first]. destruct (decide (y = b)) as [-> | Hne].
  - exists [], lib. repeat split. intros [].
  - destruct Hin as [-> | Hin]; [congruence |].
    destruct (IH Hin) as (l1 & l2 & -> & Hn & ->).
    exists (y :: l1), l2. repeat split. intros [-> | H]; [congruence | auto].
Qed.

Lemma remove_first_absent (b : Book) lib :
  ~ In b lib -> remove_first b lib = None.
Proof.
  induction lib as [| y lib IH]; intros Hn; [reflexivity |].
  cbn [remove_first]. destruct (decide (y = b)) as [-> | Hne].
  - exfalso. apply Hn. left. reflexivity.
  - rewrite IH; [reflexivity |]. intros H. apply Hn. right. exact H.
Qed.

Lemma list_remove_found (b : Book) lib :
  In b lib ->
  exists l1 l2,
    lib = l1 ++ b :: l2 /\ ~ In b l1
    /\ list_remove b lib = (l1 ++ l2, Return tt).
Proof.
  intros Hin. destruct (remove_first_found b lib Hin) as (l1 & l2 & E & Hn & Hr).
  exists l1, l2. unfold list_remove. rewrite Hr. auto.
Qed.

Lemma list_remove_absent (b : Book) lib :
  ~ In b lib ->
  list_remove b lib = (lib, Raise (ValueError "list.remove(x): x not in list")).
Proof.
  intros Hn. unfold list_remove. rewrite remove_first_absent by exact Hn.
  reflexivity.
Qed.

(** C4, as the code has it.  [remove] takes out the first book equal to
    the given one and leaves the rest in place; when no book is equal the
    catalog stays as it was and the removal reports that the book is not
    in the list.  Removing a book just added takes out one occurrence of
    it: the result has the books of the former catalog, it is the former
    catalog itself when that held no equal book (and then holds the book
    no more), and it still holds the book when the former catalog did. *)
Theorem list_remove_first_match (lib : list Book) (b : Book) :
  (In b lib ->
   exists l1 l2,
     lib = l1 ++ b :: l2 /\ ~ In b l1
     /\ list_remove b lib = (l1 ++ l2, Return tt))
  /\ (~ In b lib ->
      list_remove b lib
      = (lib, Raise (ValueError "list.remove(x): x not in list")))
  /\ (exists r,
        list_remove b (lib ++ [b]) = (r, Return tt)
        /\ Permutation r lib
        /\ (~ In b lib -> r = lib /\ ~ In b r)
        /\ (In b lib -> In b r)).
Proof.
  split; [apply list_remove_found |]. split; [apply list_remove_absent |].
  destruct (list_remove_found b (lib ++ [b])) as (l1 & l2 & E & Hn & Hr).
  { apply in_or_app. right. left. reflexivity. }
  exists (l1 ++ l2). split; [exact Hr |].
  assert (Hp : Permutation (l1 ++ l2) lib).
  { apply (Permutation_app_inv_r [b]). rewrite E, <- app_assoc.
    apply Permutation_app_head. symmetry. apply Permutation_cons_append. }
  split; [exact Hp |]. split.
  - intros Hb.
    assert (l2 = [] /\ l1 = lib) as [-> ->].
    { destruct l2 as [| z l2 _] using rev_ind.
      - rewrite app_nil_r in *. apply app_inj_tail in E as [-> _]. auto.
      - exfalso. rewrite app_comm_cons, app_assoc in E.
        apply app_inj_tail in E as [-> _]. apply Hb.
        apply in_or_app. right. left. reflexivity. }
    rewrite app_nil_r. auto.
  - intros Hb. apply (Permutation_in _ (Permutation_sym Hp)). exact Hb.
Qed.

(** C4, as the spec states it, fails for a catalog that already holds an
    equal book: after adding and removing, the book is still there. *)
Lemma remove_after_add_duplicate :
  list_remove dune ([dune] ++ [dune]) = ([dune], Return tt)
  /\ In dune (fst (list_remove dune ([dune] ++ [dune]))).
Proof. split; [reflexivity | left; reflexivity]. Qed.

Lemma found_books_incl search_term lib book :
  In book (found_books search_term lib) -> In book lib.
Proof.
  unfold found_books. destruct (nonempty search_term); [| auto].
  intros H. apply List.filter_In in H. tauto.
Qed.

Lemma list_remove_length (b : Book) lib :
  In b lib ->
  exists lib',
    list_remove b lib = (lib', Return tt) /\ length lib = S (length lib').
Proof.
  intros Hin. destruct (list_remove_found b lib Hin) as (l1 & l2 & -> & _ & Hr).
  exists (l1 ++ l2). split; [exact Hr |].
  rewrite !length_app. cbn [length]. lia.
Qed.

(** C8.  A book listed by the remove view is a book of the library, so
    removing it finds it: the removal does not raise, the view ends
    without an exception, and the library is one book shorter. *)
Theorem offered_book_is_removed (search_input : text) (i : nat) (book : Book)
    (back : bool) (w : world) :
  nth_error (found_books (lower search_input) (library w)) i = Some book ->
  In book (library w)
  /\ (exists lib',
        list_remove book (library w) = (lib', Return tt)
        /\ length (library w) = S (length lib')
        /\ library (after (remove_book_view search_input (Some i) back w)) = lib')
  /\ raised (remove_book_view search_input (Some i) back w) = None.
Proof.
  intros Hnth.
  assert (Hin : In book (library w)).
  { apply (found_books_incl (lower search_input)). eapply nth_error_In. exact Hnth. }
  destruct (list_remove_length book (library w) Hin) as (lib' & Hr & Hlen).
  assert (Hview :
    library (after (remove_book_view search_input (Some i) back w)) = lib'
    /\ raised (remove_book_view search_input (Some i) back w) = None).
  { unfold remove_book_view.
    destruct (library w) as [| b0 lib0] eqn:El; [destruct Hin |].
    cbn [negb]. cbv zeta.
    destruct (found_books (lower search_input) (b0 :: lib0)) as [| f0 found] eqn:Ef.
    - destruct i; discriminate.
    - rewrite Hnth, Hr.
      destruct (save_library_returns lib' (storage w)) as (d' & ns & ->).
      split; reflexivity. }
  destruct Hview as [Hafter Hraised]. eauto 10.
Qed.

(** The remove view at work: the search for EM lists Emma, and pressing
    its button leaves Dune alone. *)
Lemma offered_book_is_removed_witness :
  library (after (remove_book_view (str "EM") (Some 0%nat) false sample_world))
  = [dune].
Proof.
  destruct (offered_book_is_removed (str "EM") 0 emma false sample_world eq_refl)
    as (_ & (lib' & Hr & _ & ->) & _).
  injection Hr as <-. reflexivity.
Defined.

(** C9.  The add view changes the catalog only by appending: the
    catalog afterwards is the former one, or the former one followed by
    the new book when the form was submitted with a title and an author;
    either way the former catalog is a prefix of it, every book keeps its
    position, and an append makes it one book longer. *)
Theorem add_book_appends (f : add_form) (back : bool) (w : world) :
  let lib' := library (after (add_book_view f back w)) in
  let added :=
    submitted f && nonempty (title (new_book f)) && nonempty (author (new_book f)) in
  lib' = (if added then library w ++ [new_book f] else library w)
  /\ firstn (length (library w)) lib' = library w
  /\ (forall i b, nth_error (library w) i = Some b -> nth_error lib' i = Some b)
  /\ (added = true ->
      length lib' = S (length (library w))
      /\ nth_error lib' (length (library w)) = Some (new_book f)).
Proof.
  intros lib' added.
  assert (E : lib' = if added then library w ++ [new_book f] else library w).
  { subst lib' added. unfold add_book_view.
    destruct (submitted f); cbn [andb]; [| destruct back; reflexivity].
    destruct (nonempty (title (new_book f))); cbn [negb orb andb]; [| reflexivity].
    destruct (nonempty (author (new_book f))); cbn [negb]; [| reflexivity].
    destruct (save_library_returns (library w ++ [new_book f]) (storage w))
      as (d' & ns & ->).
    reflexivity. }
  split; [exact E |]. rewrite E. destruct added.
  - split; [| split; [| intros _; split]].
    + rewrite firstn_app, Nat.sub_diag, firstn_all. cbn [firstn].
      apply app_nil_r.
    + intros i b H. rewrite nth_error_app1; [exact H |].
      apply nth_error_Some. congruence.
    + rewrite length_app. cbn [length]. lia.
    + rewrite nth_error_app2, Nat.sub_diag by lia. reflexivity.
  - split; [apply firstn_all |]. split; [auto | discriminate].
Qed.

(** ** Searching *)

(** C6.  With an empty search term the remove view lists the whole
    library as it is, and the search view computes no result and shows
    nothing. *)
Theorem empty_search_term (lib : list Book) :
  found_books [] lib = lib
  /\ (forall ty, search_results ty [] lib = None)
  /\ (forall b lib' back v d,
        lib = b :: lib' ->
        let w := {| library := lib; current_view := v; storage := d |} in
        shown (remove_book_view [] None back w) = remove_rows 0 lib
        /\ (forall ty search_input,
              strip search_input = [] ->
              shown (search_books_view ty search_input back w) = [])).
Proof.
  split; [reflexivity |]. split; [intros []; reflexivity |].
  intros b lib' back v d -> w. subst w. split; [reflexivity |].
  intros ty search_input Hs. unfold search_books_view. cbn [library negb].
  rewrite Hs. destruct ty; reflexivity.
Qed.

(** ** Lower case *)

Example lower_greek : lower [937; 931; 304] = [969; 963; 105; 775].
Proof. reflexivity. Qed.

(** The capital sigma that ends a word becomes the final small sigma. *)
Example lower_final_sigma :
  lower [927; 916; 933; 931; 931; 917; 933; 931]
  = [959; 948; 965; 963; 963; 949; 965; 962].
Proof. reflexivity. Qed.

Lemma lower_char_plain before c after :
  (c =? 931) = false -> lower_char before c after = tolower_full c.
Proof. intros H. unfold lower_char. rewrite H. reflexivity. Qed.

Lemma nonempty_lower s : nonempty (lower s) = nonempty s.
Proof.
  destruct s as [| c s]; [reflexivity |]. unfold lower. cbn [lower_from].
  unfold lower_char, tolower_full.
  destruct (c =? 931); [reflexivity |]. destruct (c =? 304); reflexivity.
Qed.

(** A text without a capital sigma is lower-cased letter by letter,
    whatever stands around it. *)
Lemma lower_from_app_plain a :
  forall before b,
    no_capital_sigma a = true ->
    lower_from before (a ++ b)
    = flat_map tolower_full a ++ lower_from (rev a ++ before) b.
Proof.
  induction a as [| c a IH]; intros before b H; [reflexivity |].
  cbn [no_capital_sigma forallb] in H. apply andb_true_iff in H as [Hc Ha].
  cbn [app lower_from flat_map rev].
  rewrite lower_char_plain by (apply negb_true_iff; exact Hc).
  rewrite (IH (c :: before) b Ha), <- !app_assoc. reflexivity.
Qed.

Lemma lower_plain s :
  no_capital_sigma s = true -> lower s = flat_map tolower_full s.
Proof.
  intros H. unfold lower. rewrite <- (app_nil_r s) at 1.
  rewrite lower_from_app_plain by exact H. apply app_nil_r.
Qed.

Lemma lower_from_app a :
  forall before b,
    exists x, lower_from before (a ++ b) = x ++ lower_from (rev a ++ before) b.
Proof.
  induction a as [| c a IH]; intros before b; [exists []; reflexivity |].
  cbn [app lower_from rev]. destruct (IH (c :: before) b) as [x ->].
  exists (lower_char before c (a ++ b) ++ x). rewrite <- !app_assoc. reflexivity.
Qed.

(** The lower case of a text that holds [part], which has no capital
    sigma, holds the lower case of [part]. *)
Lemma lower_around pre part post :
  no_capital_sigma part = true ->
  exists x y, lower (pre ++ part ++ post) = x ++ lower part ++ y.
Proof.
  intros H. unfold lower at 1.
  destruct (lower_from_app pre [] (part ++ post)) as [x ->].
  rewrite lower_from_app_plain by exact H.
  rewrite (lower_plain part H). eauto.
Qed.





(** ** Sorting *)







(** C7.  Sorting by title from A to Z a list that was sorted so gives the
    same list. *)
Theorem sort_by_title_idempotent (lib : list Book) :
  sorted_library Title_AZ (sorted_library Title_AZ lib)
  = sorted_library Title_AZ lib.
Proof.
  unfold sorted_library, sorted.
  apply stable_sort_idempotent; [apply text_ltb_asym | apply text_le_trans].
Qed.

Example sort_ignores_case :
  let apple := {| title := str "apple"; author := str "A"; year := 2000;
                  genre := str "Fruit"; read := false |} in
  let banana := {| title := str "Banana"; author := str "B"; year := 2001;
                   genre := str "Fruit"; read := false |} in
  sorted_library Title_AZ [banana; apple] = [apple; banana]
  /\ Text.ltb (title banana) (title apple) = true.
Proof. split; reflexivity. Qed.

Example search_sample :
  search_results Author (str "em") [dune; emma] = Some []
  /\ search_results Author (str "er") [dune; emma] = Some [dune].
Proof. split; reflexivity. Qed.

(** * Further properties *)

(** ** Strings: [strip], [lower] and [in] *)

Lemma lstrip_head s c t : lstrip s = c :: t -> isspace c = false.
Proof.
  induction s as [| x s IH]; cbn [lstrip]; [discriminate |].
  destruct (isspace x) eqn:E; [exact IH |]. intros [= <- _]. exact E.
Qed.

Lemma lstrip_blank s : forallb isspace s = true <-> lstrip s = [].
Proof.
  induction s as [| x s IH]; cbn [lstrip forallb]; [tauto |].
  destruct (isspace x); cbn [andb]; [exact IH |]. split; discriminate.
Qed.

Lemma lstrip_fixed c t : isspace c = false -> lstrip (c :: t) = c :: t.
Proof. intros H. cbn [lstrip]. rewrite H. reflexivity. Qed.

Lemma lstrip_snoc l c :
  isspace c = false -> exists u, lstrip (l ++ [c]) = u ++ [c].
Proof.
  intros Hc. induction l as [| x l IH]; cbn [app lstrip].
  - rewrite Hc. exists []. reflexivity.
  - destruct (isspace x); [exact IH |]. exists (x :: l). reflexivity.
Qed.

Lemma strip_blank s : forallb isspace s = true -> strip s = [].
Proof.
  intros H. apply lstrip_blank in H. unfold strip, rstrip. rewrite H. reflexivity.
Qed.

Lemma trimmed_strip s : trimmed (strip s) = true.
Proof.
  unfold strip, rstrip. destruct (lstrip s) as [| c t] eqn:E; [reflexivity |].
  pose proof (lstrip_head _ _ _ E) as Hc. cbn [rev].
  destruct (lstrip_snoc (rev t) c Hc) as (u' & Hu).
  destruct (lstrip (rev t ++ [c])) as [| x u] eqn:El.
  { destruct u'; discriminate. }
  pose proof (lstrip_head _ _ _ El) as Hx.
  assert (Hl : List.last (rev (x :: u)) 0 = x) by (cbn [rev]; apply last_last).
  rewrite Hu, rev_app_distr in *. cbn [rev app] in *. unfold trimmed.
  rewrite Hc, Hl, Hx. reflexivity.
Qed.

Lemma strip_trimmed s : trimmed s = true -> strip s = s.
Proof.
  destruct s as [| c t]; [reflexivity |]. unfold trimmed.
  rewrite andb_true_iff, !negb_true_iff. intros [Hc Hl].
  unfold strip, rstrip. rewrite (lstrip_fixed c t Hc).
  assert (Hne : c :: t <> []) by discriminate.
  rewrite (app_removelast_last 0 Hne) at 1.
  rewrite rev_app_distr. cbn [rev app]. rewrite lstrip_fixed by exact Hl.
  change (List.last (c :: t) 0 :: rev (removelast (c :: t)))
    with (rev [List.last (c :: t) 0] ++ rev (removelast (c :: t))).
  rewrite <- rev_app_distr, rev_involutive, <- app_removelast_last by exact Hne.
  reflexivity.
Qed.

Lemma strip_idempotent s : strip (strip s) = strip s.
Proof. apply strip_trimmed, trimmed_strip. Qed.

Lemma nonempty_strip s : nonempty (strip s) = negb (forallb isspace s).
Proof.
  destruct (forallb isspace s) eqn:E.
  - rewrite strip_blank by exact E. reflexivity.
  - unfold strip, rstrip. destruct (lstrip s) as [| c t] eqn:El.
    + apply lstrip_blank in El. congruence.
    + pose proof (lstrip_head _ _ _ El) as Hc. cbn [rev].
      destruct (lstrip_snoc (rev t) c Hc) as (u' & ->).
      rewrite rev_app_distr. reflexivity.
Qed.

Lemma new_book_genre_nonempty f : nonempty (genre (new_book f)) = true.
Proof.
  unfold new_book. cbn [genre].
  destruct (nonempty (strip (genre_input f))) eqn:E; [exact E | reflexivity].
Qed.

(** X1.  The book that the add form builds has a title, an author and a
    genre without white space at either end, and its genre is never
    empty: a blank genre field gives the genre Unknown. *)
Theorem new_book_fields (f : add_form) :
  trimmed (title (new_book f)) = true
  /\ trimmed (author (new_book f)) = true
  /\ trimmed (genre (new_book f)) = true
  /\ nonempty (genre (new_book f)) = true
  /\ (forallb isspace (genre_input f) = true ->
      genre (new_book f) = str "Unknown").
Proof.
  unfold new_book. cbn [title author genre].
  split; [apply trimmed_strip |]. split; [apply trimmed_strip |].
  assert (Hg : nonempty (strip (genre_input f))
               = negb (forallb isspace (genre_input f))) by apply nonempty_strip.
  destruct (forallb isspace (genre_input f)); cbn [negb] in Hg; rewrite Hg.
  - repeat split; reflexivity.
  - split; [apply trimmed_strip |]. split; [exact Hg | discriminate].
Qed.

(** X2.  A submitted form is accepted exactly when the title and the
    author each hold a character that is not white space.  A rejected
    form changes nothing, in memory or on the disk, and shows the error;
    an accepted one appends the new book. *)
Theorem add_requires_title_and_author (f : add_form) (back : bool) (w : world) :
  submitted f = true ->
  if forallb isspace (title_input f) || forallb isspace (author_input f)
  then add_book_view f back w = finish w [error_required_fields]
  else library (after (add_book_view f back w)) = library w ++ [new_book f]
       /\ current_view (after (add_book_view f back w)) = menu.
Proof.
  intros Hs. unfold add_book_view. rewrite Hs.
  assert (Ht : nonempty (title (new_book f))
               = negb (forallb isspace (title_input f))) by apply nonempty_strip.
  assert (Ha : nonempty (author (new_book f))
               = negb (forallb isspace (author_input f))) by apply nonempty_strip.
  rewrite Ht, Ha, !negb_involutive.
  destruct (forallb isspace (title_input f) || forallb isspace (author_input f));
    [reflexivity |].
  destruct (save_library_returns (library w ++ [new_book f]) (storage w))
    as (d & ns & ->).
  split; reflexivity.
Qed.

Lemma add_requires_title_and_author_witness :
  add_book_view
    {| title_input := str "   "; author_input := str "Herbert"; year_input := 1965;
       genre_input := []; read_input := false; submitted := true |}
    false sample_world
  = finish sample_world [error_required_fields].
Proof.
  exact (add_requires_title_and_author
           {| title_input := str "   "; author_input := str "Herbert";
              year_input := 1965; genre_input := []; read_input := false;
              submitted := true |} false sample_world eq_refl).
Defined.

Lemma startswith_spec p s :
  startswith p s = true <-> exists post, s = p ++ post.
Proof.
  revert s. induction p as [| a p IH]; intros s; cbn [startswith].
  - split; [intros _; exists s; reflexivity | reflexivity].
  - destruct s as [| b s].
    + split; [discriminate | intros [post H]; discriminate].
    + rewrite andb_true_iff, N.eqb_eq, IH. split.
      * intros [-> [post ->]]. exists post. reflexivity.
      * intros [post [= -> ->]]. eauto.
Qed.

(** [needle in hay] holds exactly when [hay] is some text, the needle,
    and some more text. *)
Lemma contains_spec needle hay :
  contains needle hay = true <-> exists pre post, hay = pre ++ needle ++ post.
Proof.
  induction hay as [| c hay IH]; cbn [contains]; rewrite orb_true_iff, startswith_spec.
  - split.
    + intros [[post H] | H]; [| discriminate]. exists [], post. exact H.
    + intros (pre & post & H). left. destruct pre; [eauto | discriminate].
  - rewrite IH. split.
    + intros [[post H] | (pre & post & H)].
      * exists [], post. exact H.
      * exists (c :: pre), post. rewrite H. reflexivity.
    + intros (pre & post & H). destruct pre as [| x pre].
      * left. exists post. exact H.
      * right. injection H as -> ->. eauto.
Qed.

(** Text without a capital sigma that is found as written is found in
    lower case too. *)
Lemma contains_lower needle hay :
  no_capital_sigma needle = true ->
  contains needle hay = true -> contains (lower needle) (lower hay) = true.
Proof.
  intros Hs. rewrite !contains_spec. intros (pre & post & ->).
  apply lower_around. exact Hs.
Qed.

Lemma count_occ_filter_books (f : Book -> bool) (lib : list Book) (b : Book) :
  count_occ Book_eq_dec (List.filter f lib) b
  = if f b then count_occ Book_eq_dec lib b else 0%nat.
Proof.
  induction lib as [| x lib IH]; cbn [List.filter].
  - destruct (f b); reflexivity.
  - destruct (f x) eqn:Ex; destruct (Book_eq_dec x b) as [-> | Hne].
    + rewrite !count_occ_cons_eq by reflexivity. rewrite IH, Ex. reflexivity.
    + rewrite !count_occ_cons_neq by exact Hne. exact IH.
    + rewrite IH, Ex. reflexivity.
    + rewrite count_occ_cons_neq by exact Hne. exact IH.
Qed.

Lemma filter_sublist {A} (f : A -> bool) (l : list A) :
  sublist (List.filter f l) l.
Proof.
  induction l as [| x l IH]; cbn [List.filter]; [constructor |].
  destruct (f x); [apply sublist_skip | apply sublist_cons]; exact IH.
Qed.

Lemma search_results_filter ty term lib :
  nonempty term = true ->
  search_results ty term lib
  = Some (List.filter (fun b => contains term (lower (searched_field ty b))) lib).
Proof. intros H. unfold search_results. rewrite H. destruct ty; reflexivity. Qed.

(** ** Searching *)

(** X3.  For a search term that is not empty, the search returns
    exactly the books whose title (or author, as chosen) in lower case
    contains the term: the results stand in the order of the catalog, a
    book that matches is returned as many times as the catalog holds it,
    and no other book is returned. *)
Theorem search_results_spec (ty : search_type) (term : text) (lib : list Book) :
  nonempty term = true ->
  exists results,
    search_results ty term lib = Some results
    /\ sublist results lib
    /\ (forall b,
          (exists pre post, lower (searched_field ty b) = pre ++ term ++ post) ->
          count_occ Book_eq_dec results b = count_occ Book_eq_dec lib b)
    /\ (forall b,
          In b results ->
          exists pre post, lower (searched_field ty b) = pre ++ term ++ post).
Proof.
  intros H. rewrite search_results_filter by exact H.
  eexists. split; [reflexivity |]. split; [apply filter_sublist |]. split.
  - intros b Hb. apply contains_spec in Hb.
    rewrite count_occ_filter_books, Hb. reflexivity.
  - intros b Hb. apply List.filter_In in Hb as [_ Hb].
    apply contains_spec. exact Hb.
Qed.

(** Two copies of Dune are both found. *)
Lemma search_results_spec_witness :
  exists results,
    search_results Author (str "er") [dune; emma; dune] = Some results
    /\ sublist results [dune; emma; dune]
    /\ (forall b,
          (exists pre post, lower (author b) = pre ++ str "er" ++ post) ->
          count_occ Book_eq_dec results b
          = count_occ Book_eq_dec [dune; emma; dune] b)
    /\ (forall b,
          In b results ->
          exists pre post, lower (author b) = pre ++ str "er" ++ post).
Proof.
  exact (search_results_spec Author (str "er") [dune; emma; dune] eq_refl).
Defined.

(** X4.  The search does not mind the case of what was typed, nor the
    white space around it, a capital sigma aside: a book of the library
    whose title (or author) contains a text without capital sigma that
    equals the typed text, stripped, up to case is among the results
    that the search view lists. *)
Theorem search_view_finds (ty : search_type) (typed part : text) (back : bool)
    (w : world) (b : Book) :
  In b (library w) ->
  nonempty (strip typed) = true ->
  contains part (searched_field ty b) = true ->
  no_capital_sigma part = true ->
  lower part = lower (strip typed) ->
  exists results,
    shown (search_books_view ty typed back w)
    = [success_found (length results); book_list results]
    /\ In b results.
Proof.
  intros Hin Hne Hc Hs Hl. unfold search_books_view.
  destruct (library w) as [| b0 lib0] eqn:El; [destruct Hin |].
  cbn [nonempty negb]. cbv zeta.
  assert (Ht : nonempty (lower (strip typed)) = true).
  { rewrite nonempty_lower. exact Hne. }
  rewrite search_results_filter by exact Ht.
  set (results := List.filter _ (b0 :: lib0)).
  assert (Hb : In b results).
  { apply List.filter_In. split; [exact Hin |].
    rewrite <- Hl. apply contains_lower; assumption. }
  exists results. split; [| exact Hb].
  destruct results; [destruct Hb | reflexivity].
Qed.

Lemma search_view_finds_witness :
  exists results,
    shown (search_books_view Title (str "  DUN ") false sample_world)
    = [success_found (length results); book_list results]
    /\ In dune results.
Proof.
  exact (search_view_finds Title (str "  DUN ") (str "Dun") false sample_world
           dune (or_introl eq_refl) eq_refl eq_refl eq_refl eq_refl).
Defined.

(** The capital sigma is the exception: the title holds the four
    letters typed, but the typed text ends in a sigma, which becomes the
    final small sigma, and the title goes on after it, where it becomes
    the plain small sigma. *)
Example capital_sigma_is_not_found :
  contains (strip odys_typed) (title odysseia) = true
  /\ shown (search_books_view Title odys_typed false
              {| library := [odysseia]; current_view := search_books;
                 storage := fresh_disk |})
     = [warning_no_match].
Proof. split; reflexivity. Qed.

(** X5.  For typed text without white space around it, the remove view
    offers exactly the books that the search view finds by title or by
    author: the list offered is the catalog without the books that
    neither search finds, a book held twice being offered twice.  (The
    remove view does not strip what was typed; the search view does.) *)
Theorem remove_list_is_title_or_author (typed : text) (lib : list Book) :
  nonempty typed = true ->
  strip typed = typed ->
  exists by_title by_author,
    search_results Title (lower (strip typed)) lib = Some by_title
    /\ search_results Author (lower (strip typed)) lib = Some by_author
    /\ found_books (lower typed) lib
       = List.filter (fun b => bool_decide (b ∈ by_title \/ b ∈ by_author)) lib.
Proof.
  intros Hne Hs. rewrite Hs.
  assert (Ht : nonempty (lower typed) = true).
  { rewrite nonempty_lower. exact Hne. }
  rewrite !search_results_filter by exact Ht. eexists _, _.
  split; [reflexivity |]. split; [reflexivity |].
  unfold found_books. rewrite Ht. apply List.filter_ext_in. intros b Hb.
  cbn [searched_field]. symmetry.
  destruct (contains (lower typed) (lower (title b))
            || contains (lower typed) (lower (author b))) eqn:E.
  - apply bool_decide_eq_true_2. rewrite !list_elem_of_In, !List.filter_In.
    apply orb_true_iff in E. tauto.
  - apply bool_decide_eq_false_2. rewrite !list_elem_of_In, !List.filter_In.
    apply orb_false_iff in E as [E1 E2]. rewrite E1, E2.
    intros [[_ H] | [_ H]]; discriminate.
Qed.

Lemma remove_list_is_title_or_author_witness :
  exists by_title by_author,
    search_results Title (lower (strip (str "He"))) [dune; emma; dune]
    = Some by_title
    /\ search_results Author (lower (strip (str "He"))) [dune; emma; dune]
       = Some by_author
    /\ found_books (lower (str "He")) [dune; emma; dune]
       = List.filter (fun b => bool_decide (b ∈ by_title \/ b ∈ by_author))
           [dune; emma; dune].
Proof.
  exact (remove_list_is_title_or_author (str "He") [dune; emma; dune]
           eq_refl eq_refl).
Defined.

(** ** The store and the session *)

(** A save that fails shows the error and leaves the file as the failed
    write left it. *)
Lemma save_library_unwritable lib d :
  writable d = false ->
  exists d' e,
    save_library lib d = Return (d', [error_saving e])
    /\ (short_write d = None -> d' = d)
    /\ (forall n, short_write d = Some n ->
          file d' = Some (firstn n (dumps (catalog_json lib)))).
Proof.
  intros H. unfold save_library, write_file. rewrite H.
  destruct (short_write d) as [n |]; eexists _, _;
    (split; [reflexivity |]); split; try discriminate; try reflexivity.
  intros n' [= <-]. reflexivity.
Qed.

(** What the remove view does when the button of a listed book is
    pressed. *)
Lemma remove_book_view_click typed i book back w :
  nth_error (found_books (lower typed) (library w)) i = Some book ->
  exists lib' d ns,
    list_remove book (library w) = (lib', Return tt)
    /\ length (library w) = S (length lib')
    /\ save_library lib' (storage w) = Return (d, ns)
    /\ remove_book_view typed (Some i) back w
       = finish {| library := lib'; current_view := current_view w; storage := d |}
           (remove_rows 0 (firstn (S i) (found_books (lower typed) (library w)))
            ++ ns ++ [success_removed (title book)]).
Proof.
  intros Hnth.
  assert (Hin : In book (library w)).
  { apply (found_books_incl (lower typed)). eapply nth_error_In. exact Hnth. }
  destruct (list_remove_length book (library w) Hin) as (lib' & Hr & Hlen).
  destruct (save_library_returns lib' (storage w)) as (d & ns & Hs).
  exists lib', d, ns. split; [exact Hr |]. split; [exact Hlen |].
  split; [exact Hs |]. unfold remove_book_view.
  destruct (library w) as [| b0 lib0] eqn:El; [destruct Hin |].
  cbn [nonempty negb]. cbv zeta.
  destruct (found_books (lower typed) (b0 :: lib0)) as [| f0 found] eqn:Ef.
  - destruct i; discriminate.
  - rewrite Hnth, Hr, Hs. reflexivity.
Qed.

(** What the add view does with an accepted form. *)
Lemma add_book_view_accepted f back w :
  submitted f = true ->
  nonempty (title (new_book f)) = true ->
  nonempty (author (new_book f)) = true ->
  exists d ns,
    save_library (library w ++ [new_book f]) (storage w) = Return (d, ns)
    /\ add_book_view f back w
       = finish {| library := library w ++ [new_book f]; current_view := menu;
                   storage := d |}
           (ns ++ [success_added (title (new_book f))]).
Proof.
  intros Hs Ht Ha.
  destruct (save_library_returns (library w ++ [new_book f]) (storage w))
    as (d & ns & Hsave).
  exists d, ns. split; [exact Hsave |].
  unfold add_book_view. rewrite Hs, Ht, Ha. cbn [negb orb]. cbv zeta.
  rewrite Hsave. reflexivity.
Qed.

(** X6.  When the save fails, adding and removing still change the
    catalog in memory, the error of the save is shown, and the success
    message follows it all the same.  The file is as it was when it
    could not be opened; when the write failed after the file was
    opened, the former contents are lost and the file holds only the
    beginning of the new encoding that was written. *)
Theorem save_failure_keeps_memory (w : world) :
  writable (storage w) = false ->
  (forall f back,
      submitted f = true ->
      nonempty (title (new_book f)) = true ->
      nonempty (author (new_book f)) = true ->
      exists d e,
        add_book_view f back w
        = finish {| library := library w ++ [new_book f]; current_view := menu;
                    storage := d |}
            [error_saving e; success_added (title (new_book f))]
        /\ (short_write (storage w) = None -> d = storage w)
        /\ (forall n,
              short_write (storage w) = Some n ->
              file d
              = Some (firstn n (dumps (catalog_json (library w ++ [new_book f]))))))
  /\ (forall typed i book back,
        nth_error (found_books (lower typed) (library w)) i = Some book ->
        let r := remove_book_view typed (Some i) back w in
        length (library w) = S (length (library (after r)))
        /\ raised r = None
        /\ (exists rows e,
              shown r = rows ++ [error_saving e; success_removed (title book)])
        /\ (short_write (storage w) = None -> storage (after r) = storage w)
        /\ (forall n,
              short_write (storage w) = Some n ->
              file (storage (after r))
              = Some (firstn n (dumps (catalog_json (library (after r))))))).
Proof.
  intros Hw. split.
  - intros f back Hs Ht Ha.
    destruct (add_book_view_accepted f back w Hs Ht Ha) as (d & ns & Hsave & ->).
    destruct (save_library_unwritable (library w ++ [new_book f]) (storage w) Hw)
      as (d' & e & Hsave' & Hopen & Hshort).
    rewrite Hsave in Hsave'. injection Hsave' as -> ->.
    exists d', e. auto.
  - intros typed i book back Hnth r. subst r.
    destruct (remove_book_view_click typed i book back w Hnth)
      as (lib' & d & ns & Hr & Hlen & Hsave & ->).
    destruct (save_library_unwritable lib' (storage w) Hw)
      as (d' & e & Hsave' & Hopen & Hshort).
    rewrite Hsave in Hsave'. injection Hsave' as -> ->.
    cbn [finish after shown raised storage library].
    split; [exact Hlen |]. split; [reflexivity |]. split; [eauto |]. auto.
Qed.

(** Adding Dune on a full disk: the file that held Emma is left empty. *)
Lemma save_failure_keeps_memory_witness :
  exists d e,
    add_book_view dune_form false
      {| library := [emma]; current_view := add_book; storage := full_disk |}
    = finish {| library := [emma; dune]; current_view := menu; storage := d |}
        [error_saving e; success_added (str "Dune")]
    /\ (short_write full_disk = None -> d = full_disk)
    /\ (forall n,
          short_write full_disk = Some n ->
          file d = Some (firstn n (dumps (catalog_json [emma; dune])))).
Proof.
  exact (proj1 (save_failure_keeps_memory
                  {| library := [emma]; current_view := add_book;
                     storage := full_disk |} eq_refl)
           dune_form false eq_refl eq_refl eq_refl).
Defined.

(** X7.  On a file that can be written, every accepted add and every
    removal leaves the file holding the encoding of the catalog that is
    in memory afterwards, whatever the file held before. *)
Theorem mutation_is_persisted (w : world) :
  writable (storage w) = true ->
  (forall f back,
      submitted f = true ->
      nonempty (title (new_book f)) = true ->
      nonempty (author (new_book f)) = true ->
      persisted (after (add_book_view f back w))
      /\ library (after (add_book_view f back w)) = library w ++ [new_book f])
  /\ (forall typed i book back,
        nth_error (found_books (lower typed) (library w)) i = Some book ->
        persisted (after (remove_book_view typed (Some i) back w))
        /\ length (library w)
           = S (length (library (after (remove_book_view typed (Some i) back w))))).
Proof.
  intros Hw. split.
  - intros f back Hs Ht Ha.
    destruct (add_book_view_accepted f back w Hs Ht Ha) as (d & ns & Hsave & ->).
    rewrite save_library_writable in Hsave by exact Hw.
    injection Hsave as <- <-. split; reflexivity.
  - intros typed i book back Hnth.
    destruct (remove_book_view_click typed i book back w Hnth)
      as (lib' & d & ns & Hr & Hlen & Hsave & ->).
    rewrite save_library_writable in Hsave by exact Hw.
    injection Hsave as <- <-. split; [reflexivity | exact Hlen].
Qed.

Lemma mutation_is_persisted_witness :
  persisted (after (remove_book_view (str "em") (Some 0%nat) false sample_world)).
Proof.
  exact (proj1 (proj2 (mutation_is_persisted sample_world eq_refl)
                  (str "em") 0%nat emma false eq_refl)).
Defined.

(** ** Runs of the script *)

(** The pages that only show: they end normally and leave the catalog
    and the file alone. *)
Lemma search_books_view_shows ty typed back w :
  exists ns, search_books_view ty typed back w
             = finish (if back then go_to menu w else w) ns.
Proof.
  unfold search_books_view. destruct (negb (nonempty (library w))); eauto.
Qed.

Lemma view_all_books_shows o back w :
  exists ns, view_all_books o back w = finish (if back then go_to menu w else w) ns.
Proof. unfold view_all_books. destruct (negb (nonempty (library w))); eauto. Qed.

Lemma statistics_view_shows back w :
  exists ns, statistics_view back w = finish (if back then go_to menu w else w) ns.
Proof. unfold statistics_view. destruct (negb (nonempty (library w))); eauto. Qed.

Lemma display_menu_frame b w :
  library (fst (display_menu b w)) = library w
  /\ storage (fst (display_menu b w)) = storage w
  /\ snd (display_menu b w) = length (library w).
Proof.
  unfold display_menu, press.
  destruct (add_button b), (search_button b), (statistics_button b),
    (view_all_button b), (remove_button b); repeat split.
Qed.

Lemma go_to_current w : go_to (current_view w) w = w.
Proof. destruct w. reflexivity. Qed.

Lemma go_to_go_to v v' w : go_to v (go_to v' w) = go_to v w.
Proof. reflexivity. Qed.

Lemma step_stay w ns : step w (finish w ns).
Proof. rewrite <- (go_to_current w) at 2. apply step_show. Qed.

Lemma step_back (back : bool) w ns :
  step w (finish (if back then go_to menu w else w) ns).
Proof. destruct back; [apply step_show | apply step_stay]. Qed.

Lemma add_book_view_step f back w : step w (add_book_view f back w).
Proof.
  destruct (submitted f) eqn:Hs.
  - destruct (nonempty (title (new_book f))) eqn:Ht;
      [destruct (nonempty (author (new_book f))) eqn:Ha |].
    + destruct (add_book_view_accepted f back w Hs Ht Ha) as (d & ns & Hsave & ->).
      eapply step_add; [| exact Hsave].
      unfold complete. rewrite Ht, Ha. cbn [andb].
      apply new_book_genre_nonempty.
    + unfold add_book_view. rewrite Hs, Ht, Ha. apply step_stay.
    + unfold add_book_view. rewrite Hs, Ht. apply step_stay.
  - unfold add_book_view. rewrite Hs. destruct back; [apply step_show | apply step_stay].
Qed.

Lemma remove_book_view_step typed clicked back w :
  step w (remove_book_view typed clicked back w).
Proof.
  destruct clicked as [i |].
  - destruct (nth_error (found_books (lower typed) (library w)) i) as [book |] eqn:Hn.
    + destruct (remove_book_view_click typed i book back w Hn)
        as (lib' & d & ns & Hr & _ & Hsave & ->).
      assert (Hin : In book (library w)).
      { apply (found_books_incl (lower typed)). eapply nth_error_In. exact Hn. }
      destruct (list_remove_found book (library w) Hin) as (l1 & l2 & E & _ & Hr').
      rewrite Hr in Hr'. injection Hr' as ->.
      eapply step_remove; [exact E | exact Hsave].
    + unfold remove_book_view. destruct (negb (nonempty (library w)));
        [apply step_back |]. cbv zeta. rewrite Hn.
      destruct (found_books (lower typed) (library w)); apply step_back.
  - unfold remove_book_view. destruct (negb (nonempty (library w)));
      [apply step_back |]. cbv zeta.
    destruct (found_books (lower typed) (library w)); apply step_back.
Qed.

Lemma display_menu_step b w ns : step w (finish (fst (display_menu b w)) ns).
Proof.
  unfold display_menu, press.
  destruct (add_button b), (search_button b), (statistics_button b),
    (view_all_button b), (remove_button b); cbn [fst];
    rewrite ?go_to_go_to; try apply step_show; apply step_stay.
Qed.

Lemma main_step i w : step w (main i w).
Proof.
  unfold main. destruct (current_view w).
  - apply display_menu_step.
  - apply add_book_view_step.
  - apply remove_book_view_step.
  - destruct (search_books_view_shows (i_search_type i) (i_search_term i) (i_back i) w)
      as (ns & ->). apply step_back.
  - destruct (view_all_books_shows (i_sort i) (i_back i) w) as (ns & ->).
    apply step_back.
  - destruct (statistics_view_shows (i_back i) w) as (ns & ->). apply step_back.
Qed.

(** X9.  A run changes the catalog by one book at most.  Either the
    catalog and the file are as they were, or one book with a title, an
    author and a genre was appended, or one book was taken out and the
    others kept their order. *)
Theorem one_book_per_run (i : inputs) (w : world) :
  (library (after (main i w)) = library w
   /\ storage (after (main i w)) = storage w)
  \/ (exists b,
        complete b = true
        /\ library (after (main i w)) = library w ++ [b])
  \/ (exists l1 b l2,
        library w = l1 ++ b :: l2
        /\ library (after (main i w)) = l1 ++ l2).
Proof.
  destruct (main_step i w) as [v ns | b d ns ns' Hb _ | l1 b l2 d ns ns' E _];
    cbn [finish after library storage go_to]; eauto 10.
Qed.

Lemma forallb_remove_middle {A} (f : A -> bool) l1 b l2 :
  forallb f (l1 ++ b :: l2) = true -> forallb f (l1 ++ l2) = true.
Proof.
  rewrite !forallb_app. cbn [forallb]. rewrite !andb_true_iff. tauto.
Qed.

(** X10.  If every book of the catalog has a title, an author and a
    genre, the same holds after any run: the add form refuses a book
    without title or author and fills in a blank genre. *)
Theorem run_keeps_books_complete (i : inputs) (w : world) :
  forallb complete (library w) = true ->
  forallb complete (library (after (main i w))) = true.
Proof.
  intros H.
  destruct (main_step i w) as [v ns | b d ns ns' Hb _ | l1 b l2 d ns ns' E _];
    cbn [finish after library go_to].
  - exact H.
  - rewrite forallb_app, H. cbn [forallb]. rewrite Hb. reflexivity.
  - rewrite E in H. apply (forallb_remove_middle _ _ _ _ H).
Qed.

Lemma run_keeps_books_complete_witness :
  forallb complete
    (library (after (main {| i_menu := no_buttons; i_form := dune_form;
                             i_remove_term := []; i_remove_click := None;
                             i_search_type := Title; i_search_term := [];
                             i_sort := Title_AZ; i_back := false |}
                       {| library := [emma]; current_view := add_book;
                          storage := fresh_disk |})))
  = true.
Proof.
  exact (run_keeps_books_complete _
           {| library := [emma]; current_view := add_book; storage := fresh_disk |}
           eq_refl).
Defined.



(** X12.  From the menu, pressing the button of a page selects that
    page and changes nothing else; the run still draws the menu, with
    the number of books of the catalog.  Pressing Back to Menu on the
    page, with nothing else pressed, gives back the state before. *)
Theorem menu_and_back (v : view) (w : world) :
  current_view w = menu ->
  v <> menu ->
  main (choose v) w = finish (go_to v w) []
  /\ snd (display_menu (menu_choice v) w) = length (library w)
  /\ after (main go_back (after (main (choose v) w))) = w
  /\ raised (main go_back (after (main (choose v) w))) = None.
Proof.
  intros Hm Hv.
  assert (H1 : main (choose v) w = finish (go_to v w) []).
  { unfold main. rewrite Hm. destruct v; try congruence; destruct w; reflexivity. }
  assert (Hw : go_to menu w = w).
  { rewrite <- Hm. apply go_to_current. }
  split; [exact H1 |]. split; [apply display_menu_frame |].
  rewrite H1. cbn [finish after]. unfold main. cbn [go_to current_view].
  destruct v; try congruence; cbn [go_back i_form i_back i_remove_term
    i_remove_click i_search_type i_search_term i_sort].
  - unfold add_book_view. cbn [blank_form submitted finish after raised].
    rewrite go_to_go_to. auto.
  - unfold remove_book_view. cbn [go_to library].
    destruct (library w) as [| b lib] eqn:El; cbn [nonempty negb finish after raised];
      rewrite ?go_to_go_to; auto.
  - destruct (search_books_view_shows Title [] true (go_to search_books w))
      as (ns & ->). cbn [finish after raised]. rewrite go_to_go_to. auto.
  - destruct (view_all_books_shows Title_AZ true (go_to view_all w)) as (ns & ->).
    cbn [finish after raised]. rewrite go_to_go_to. auto.
  - destruct (statistics_view_shows true (go_to statistics_page w)) as (ns & ->).
    cbn [finish after raised]. rewrite go_to_go_to. auto.
Qed.

Lemma menu_and_back_witness :
  after (main go_back (after (main (choose statistics_page) sample_world)))
  = sample_world.
Proof.
  assert (H : statistics_page <> menu) by discriminate.
  exact (proj1 (proj2 (proj2 (menu_and_back statistics_page sample_world eq_refl H)))).
Defined.

(** ** Starting a session *)

(** X13.  [initialize_session_state] reads the file only when the
    library key is missing.  It raises exactly when that key is missing
    and the test for the file raises, before any key is set; otherwise
    it returns with the four keys set, the keys that were set kept as
    they were.  Run again on the session it leaves, it changes nothing
    and shows nothing, whatever the file holds by then: the library is
    loaded once per session.  A session that starts on a file holding a
    catalog of books is the world of that catalog, on the menu. *)
Theorem initialize_once (ss : session_state) (d : disk) :
  (forall e,
      initialize_session_state ss d = Raise e
      <-> ss_library ss = None /\ path_exists d = Raise e)
  /\ (forall ss' ns,
        initialize_session_state ss d = Return (ss', ns) ->
        (exists lib,
            ss' = {| ss_library := Some lib;
                     ss_current_view := Some (default menu (ss_current_view ss));
                     ss_search_term := Some (default [] (ss_search_term ss));
                     ss_search_type :=
                       Some (default (str "title") (ss_search_type ss)) |}
            /\ (forall v, ss_library ss = Some v -> lib = v /\ ns = [])
            /\ (ss_library ss = None -> load_library d = Return (lib, ns)))
        /\ (forall d', initialize_session_state ss' d' = Return (ss', [])))
  /\ (forall lib ns,
        load_library d = Return (catalog_json lib, ns) ->
        exists ss',
          initialize_session_state new_session d = Return (ss', ns)
          /\ world_of ss' d {| library := lib; current_view := menu; storage := d |}).
Proof.
  split; [| split].
  - intros e. unfold initialize_session_state.
    destruct (ss_library ss) as [v |]; cbn [mbind result_bind].
    + split; [discriminate | intros [H _]; discriminate].
    + unfold load_library.
      destruct (path_exists d) as [found | e']; cbn [mbind result_bind].
      * split; [| intros [_ H]; discriminate].
        destruct found; cbn [negb]; [| discriminate].
        destruct (read_file d) as [t |]; cbn [mbind result_bind try_except];
          [| discriminate].
        destruct (loads t); discriminate.
      * split; [intros [= ->]; auto | intros [_ [= ->]]; reflexivity].
  - intros ss' ns. unfold initialize_session_state.
    destruct (ss_library ss) as [v |] eqn:E; cbn [mbind result_bind].
    + intros [= <- <-]. split; [| reflexivity].
      exists v. split; [reflexivity |]. split; [intros ? [= ->]; auto | discriminate].
    + destruct (load_library d) as [[lib ns'] | e] eqn:El; cbn [mbind result_bind];
        [| discriminate].
      intros [= <- <-]. split; [| reflexivity].
      exists lib. split; [reflexivity |]. split; [discriminate | reflexivity].
  - intros lib ns Hl. unfold initialize_session_state.
    cbn [new_session ss_library]. rewrite Hl. cbn [mbind result_bind].
    eexists. split; [reflexivity |]. repeat split.
Qed.

(** X14.  A book added in one session is there at the start of the next:
    after an accepted add on a file that can be written and read, a new
    session starts with the former catalog followed by the new book, on
    the menu, and shows no error. *)
Theorem next_session_has_added_book (lib : list Book) (d : disk) (f : add_form)
    (back : bool) (v : view) :
  forallb unicode_book lib = true ->
  unicode_book (new_book f) = true ->
  writable d = true ->
  readable d = true ->
  submitted f = true ->
  nonempty (title (new_book f)) = true ->
  nonempty (author (new_book f)) = true ->
  initialize_session_state new_session
    (storage (after (add_book_view f back
                       {| library := lib; current_view := v; storage := d |})))
  = Return ({| ss_library := Some (catalog_json (lib ++ [new_book f]));
               ss_current_view := Some menu;
               ss_search_term := Some [];
               ss_search_type := Some (str "title") |}, []).
Proof.
  intros Hu Hb Hw Hr Hs Ht Ha.
  destruct (add_book_view_accepted f back
              {| library := lib; current_view := v; storage := d |} Hs Ht Ha)
    as (d' & ns & Hsave & ->).
  cbn [library storage finish after] in *.
  destruct (save_then_load (lib ++ [new_book f]) d) as (d'' & Hsave' & Hl);
    [apply unicode_catalog_app; assumption | assumption | assumption |].
  rewrite Hsave in Hsave'. injection Hsave' as -> _.
  unfold initialize_session_state. cbn [new_session ss_library]. rewrite Hl.
  reflexivity.
Qed.

Lemma next_session_has_added_book_witness :
  initialize_session_state new_session
    (storage (after (add_book_view dune_form false
                       {| library := [emma]; current_view := add_book;
                          storage := fresh_disk |})))
  = Return ({| ss_library := Some (catalog_json [emma; dune]);
               ss_current_view := Some menu;
               ss_search_term := Some [];
               ss_search_type := Some (str "title") |}, []).
Proof.
  exact (next_session_has_added_book [emma] fresh_disk dune_form false add_book
           eq_refl eq_refl eq_refl eq_refl eq_refl eq_refl eq_refl).
Defined.

(** X15.  When the file is there but cannot be read or decoded, the
    session starts with the empty catalog and shows the error; the file
    is left as it is until the first accepted add or removal, which then
    replaces it: after the first accepted add the file holds the new
    book alone. *)
Theorem failed_load_starts_fresh (d : disk) (t : text) (e : exn) :
  file d = Some t ->
  (read_file d ≫= loads) = Raise e ->
  initialize_session_state new_session d
  = Return ({| ss_library := Some (catalog_json []);
               ss_current_view := Some menu;
               ss_search_term := Some [];
               ss_search_type := Some (str "title") |}, [error_loading e])
  /\ (forall f back,
        writable d = true ->
        submitted f = true ->
        nonempty (title (new_book f)) = true ->
        nonempty (author (new_book f)) = true ->
        file (storage (after (add_book_view f back
                                {| library := []; current_view := add_book;
                                   storage := d |})))
        = Some (dumps (catalog_json [new_book f]))).
Proof.
  intros Hf He. split.
  - unfold initialize_session_state. cbn [new_session ss_library].
    rewrite (load_library_file d t Hf), He. reflexivity.
  - intros f back Hw Hs Ht Ha.
    destruct (add_book_view_accepted f back
                {| library := []; current_view := add_book; storage := d |}
                Hs Ht Ha) as (d' & ns & Hsave & ->).
    cbn [library storage finish after app] in *.
    rewrite save_library_writable in Hsave by exact Hw.
    injection Hsave as <- _. reflexivity.
Qed.

Lemma failed_load_starts_fresh_witness :
  initialize_session_state new_session
    {| file := Some (str "[{title: Dune}]"); stat_errno := ENOENT;
       readable := true; writable := true; short_write := None |}
  = Return ({| ss_library := Some (catalog_json []);
               ss_current_view := Some menu;
               ss_search_term := Some [];
               ss_search_type := Some (str "title") |},
            [error_loading
               (JSONDecodeError "Expecting property name enclosed in double quotes")]).
Proof.
  exact (proj1 (failed_load_starts_fresh
                  {| file := Some (str "[{title: Dune}]"); stat_errno := ENOENT;
                     readable := true; writable := true; short_write := None |}
                  (str "[{title: Dune}]")
                  (JSONDecodeError "Expecting property name enclosed in double quotes")
                  eq_refl eq_refl)).
Defined.

(** X16.  [load_library] hands back whatever value the file encodes
    and does not check that it is a list of books: a readable file that
    holds the encoding of any value within the limits of the interpreter
    (without floats, with Unicode strings and distinct keys) loads as
    that value, with no error. *)
Theorem load_returns_any_value (v : json) (d : disk) :
  jsonable v = true ->
  within_limits v = true ->
  file d = Some (dumps v) ->
  readable d = true ->
  load_library d = Return (v, []).
Proof.
  intros Hj _ Hf Hr. rewrite (load_library_file d (dumps v) Hf).
  unfold read_file. rewrite Hf, Hr. cbn [mbind result_bind].
  rewrite loads_dumps by exact Hj. reflexivity.
Qed.

Lemma load_returns_any_value_witness :
  load_library {| file := Some (dumps (JDict [(str "title", JInt 7)]));
                  stat_errno := ENOENT; readable := true; writable := true;
                  short_write := None |}
  = Return (JDict [(str "title", JInt 7)], []).
Proof.
  exact (load_returns_any_value (JDict [(str "title", JInt 7)])
           {| file := Some (dumps (JDict [(str "title", JInt 7)]));
              stat_errno := ENOENT; readable := true; writable := true;
              short_write := None |} eq_refl eq_refl eq_refl eq_refl).
Defined.

(** ** Figures of the statistics page *)

Lemma filter_length_le {A} (f : A -> bool) (l : list A) :
  (length (List.filter f l) <= length l)%nat.
Proof.
  induction l as [| x l IH]; cbn [List.filter length]; [lia |].
  destruct (f x); cbn [length]; lia.
Qed.

(** X17.  The figures agree with each other: the books read and the
    books not read of the chart add up to the total, and the share of
    books read lies between 0 and 100. *)
Theorem statistics_figures_consistent (lib : list Book) :
  let s := statistics lib in
  (read_count s + (total_books s - read_count s) = total_books s)%nat
  /\ (read_count s <= total_books s)%nat
  /\ (0 <= percentage_read s)%Q
  /\ (percentage_read s <= 100)%Q.
Proof.
  cbn zeta. cbn [statistics read_count total_books percentage_read].
  pose proof (filter_length_le read lib) as Hle.
  split; [lia |]. split; [exact Hle |].
  destruct (length lib) as [| n] eqn:El; cbn [Nat.ltb Nat.leb].
  - split; [apply Qle_refl | discriminate].
  - set (r := length (List.filter read lib)) in *.
    assert (Hpos : (0 < inject_Z (Z.of_nat (S n)))%Q).
    { change 0%Q with (inject_Z 0). rewrite <- Zlt_Qlt. lia. }
    split.
    + apply Qmult_le_0_compat; [| discriminate].
      apply Qle_shift_div_l; [exact Hpos |]. rewrite Qmult_0_l.
      change 0%Q with (inject_Z 0). rewrite <- Zle_Qle. lia.
    + apply (Qle_trans _ (1 * 100)%Q); [| discriminate].
      apply Qmult_le_compat_r; [| discriminate].
      apply Qle_shift_div_r; [exact Hpos |]. rewrite Qmult_1_l.
      rewrite <- Zle_Qle. lia.
Qed.

Lemma histogram_total_count gs b :
  histogram_total (count_genre gs b) = S (histogram_total gs).
Proof.
  unfold histogram_total, count_genre. cbv zeta.
  set (g := genre_label b).
  destruct (gs !! g) as [n |] eqn:E; cbn [default].
  - rewrite (map_fold_delete_L _ _ g n gs) by (try (intros; lia); exact E).
    rewrite <- insert_delete_eq.
    rewrite map_fold_insert_L by (try (intros; lia); apply lookup_delete_eq).
    unfold id. lia.
  - rewrite map_fold_insert_L by (try (intros; lia); exact E). lia.
Qed.

Lemma histogram_total_loop lib :
  forall gs,
    histogram_total (fold_left count_genre lib gs)
    = (length lib + histogram_total gs)%nat.
Proof.
  induction lib as [| b lib IH]; intros gs; [reflexivity |].
  cbn [fold_left length]. rewrite IH, histogram_total_count. lia.
Qed.

Lemma occurrences_positive g lib :
  occurrences g lib <> 0%nat <-> exists b, In b lib /\ genre_label b = g.
Proof.
  induction lib as [| b lib IH].
  - split; [intros H; exfalso; apply H; reflexivity | intros (b & [] & _)].
  - rewrite occurrences_cons. destruct (decide (genre_label b = g)) as [E | E].
    + split; [intros _ | intros _; lia]. exists b. split; [left; reflexivity | exact E].
    + cbn [Nat.add]. rewrite IH. split.
      * intros (b' & Hin & Hb'). exists b'. split; [right; exact Hin | exact Hb'].
      * intros (b' & [-> | Hin] & Hb'); [congruence | eauto].
Qed.

Lemma genre_label_nonempty b : nonempty (genre_label b) = true.
Proof.
  unfold genre_label. destruct (nonempty (genre b)) eqn:E; [exact E | reflexivity].
Qed.

(** X18.  The histogram files every book under one genre: its counts add
    up to the number of books, its keys are the genres of the books
    (Unknown standing for a blank genre), each with a count of one or
    more, and the empty string is never a key. *)
Theorem genre_histogram_covers (lib : list Book) :
  histogram_total (genres (statistics lib)) = length lib
  /\ (forall g,
        g ∈ dom (genres (statistics lib))
        <-> exists b, In b lib /\ genre_label b = g)
  /\ (forall g n, genres (statistics lib) !! g = Some n -> (1 <= n)%nat)
  /\ genres (statistics lib) !! [] = None.
Proof.
  split; [| split; [| split]].
  - cbn [statistics genres]. rewrite histogram_total_loop.
    unfold histogram_total. rewrite map_fold_empty. lia.
  - intros g. rewrite elem_of_dom, genres_lookup, <- occurrences_positive.
    destruct (decide (occurrences g lib = 0%nat)) as [E | E].
    + split; [intros [x Hx]; discriminate | congruence].
    + split; [auto | eauto].
  - intros g n. rewrite genres_lookup.
    destruct (decide (occurrences g lib = 0%nat)); [discriminate |].
    intros [= <-]. lia.
  - rewrite genres_lookup. rewrite decide_True; [reflexivity |].
    destruct (decide (occurrences [] lib = 0%nat)) as [E | E]; [exact E |].
    apply occurrences_positive in E as (b & _ & Hb).
    pose proof (genre_label_nonempty b) as Hn. rewrite Hb in Hn. discriminate.
Qed.

(** ** More on sorting *)

Section SortMore.
Context {A K : Type}.
Variable lt : K -> K -> bool.
Variable key : A -> K.
Hypothesis lt_asym : forall a b, lt a b = true -> lt b a = false.
Hypothesis le_trans :
  forall a b c, lt b a = false -> lt c b = false -> lt c a = false.
Hypothesis lt_total : forall a b, lt a b = false -> lt b a = false -> a = b.

Lemma sorted_idempotent reverse l :
  sorted lt key reverse (sorted lt key reverse l) = sorted lt key reverse l.
Proof.
  unfold sorted. destruct reverse.
  - rewrite rev_involutive. f_equal. apply stable_sort_idempotent; assumption.
  - apply stable_sort_idempotent; assumption.
Qed.

(** Two lists in order that hold the same elements are the same list,
    when elements with the same key are equal. *)
Lemma sorted_unique l1 :
  forall l2,
    (forall a b, In a l1 -> In b l1 -> key a = key b -> a = b) ->
    StronglySorted (key_le lt key) l1 ->
    StronglySorted (key_le lt key) l2 ->
    Permutation l1 l2 ->
    l1 = l2.
Proof.
  induction l1 as [| x l1 IH]; intros l2 Hinj S1 S2 Hp.
  - apply Permutation_nil in Hp. congruence.
  - destruct l2 as [| y l2].
    { apply Permutation_sym, Permutation_nil in Hp. discriminate. }
    apply StronglySorted_inv in S1 as [S1 H1].
    apply StronglySorted_inv in S2 as [S2 H2].
    rewrite List.Forall_forall in H1, H2.
    assert (Hy : In y (x :: l1)).
    { apply (Permutation_in _ (Permutation_sym Hp)). left. reflexivity. }
    assert (Hx : In x (y :: l2)).
    { apply (Permutation_in _ Hp). left. reflexivity. }
    assert (E : x = y).
    { destruct Hx as [E | Hx]; [congruence |].
      destruct Hy as [E | Hy]; [congruence |].
      apply Hinj; [left; reflexivity | right; exact Hy |].
      apply lt_total; [apply (H2 x Hx) | apply (H1 y Hy)]. }
    subst y. f_equal. apply IH; auto.
    + intros a b Ha Hb. apply Hinj; right; assumption.
    + apply Permutation_cons_inv in Hp. exact Hp.
Qed.

Lemma sorted_reverse l :
  (forall a b, In a l -> In b l -> key a = key b -> a = b) ->
  sorted lt key true l = rev (sorted lt key false l).
Proof.
  intros Hinj. unfold sorted. f_equal.
  apply sorted_unique.
  - intros a b Ha Hb. apply Hinj.
    + apply in_rev. apply (Permutation_in _ (Permutation_sym (stable_sort_perm lt key (rev l)))).
      exact Ha.
    + apply in_rev. apply (Permutation_in _ (Permutation_sym (stable_sort_perm lt key (rev l)))).
      exact Hb.
  - apply stable_sort_sorted; assumption.
  - apply stable_sort_sorted; assumption.
  - rewrite <- !stable_sort_perm. symmetry. apply Permutation_rev.
Qed.

End SortMore.

Lemma text_ltb_total a :
  forall b, Text.ltb a b = false -> Text.ltb b a = false -> a = b.
Proof.
  induction a as [| x a IH]; intros [| y b]; cbn [Text.ltb];
    try congruence; try reflexivity.
  rewrite !orb_false_iff, !andb_false_iff, !N.ltb_ge, !N.eqb_neq.
  intros [H1 H2] [H3 H4]. assert (x = y) by lia. subst y. f_equal.
  apply IH; [destruct H2 | destruct H4]; congruence.
Qed.

Lemma Z_ltb_total (a b : Z) : (a <? b)%Z = false -> (b <? a)%Z = false -> a = b.
Proof. rewrite !Z.ltb_ge. lia. Qed.

(** X19.  Sorting is idempotent for each of the six options: sorting
    the list that a sort returned gives that list again. *)
Theorem sorted_library_idempotent (o : sort_option) (lib : list Book) :
  sorted_library o (sorted_library o lib) = sorted_library o lib.
Proof.
  destruct o; unfold sorted_library;
    first [ apply sorted_idempotent; [apply text_ltb_asym | apply text_le_trans]
          | apply sorted_idempotent; [apply Z_ltb_asym | apply Z_le_trans] ].
Qed.

(** X20.  When the books that share a sort key are equal books, the
    listing in one direction is the listing in the other direction read
    backwards.  (Books that differ but share the key keep their catalog
    order in both directions, so there the two listings are not mirror
    images.) *)
Theorem opposite_direction_reverses (o : sort_option) (lib : list Book) :
  (forall a b, In a lib -> In b lib -> sort_key o a = sort_key o b -> a = b) ->
  sorted_library (opposite o) lib = rev (sorted_library o lib).
Proof.
  intros Hinj.
  assert (Ht : forall key : Book -> text,
             (forall a b, In a lib -> In b lib -> key a = key b -> a = b) ->
             sorted Text.ltb key true lib = rev (sorted Text.ltb key false lib)).
  { intros key H. apply sorted_reverse;
      [apply text_ltb_asym | apply text_le_trans | apply text_ltb_total | exact H]. }
  assert (Hz : (forall a b, In a lib -> In b lib -> year a = year b -> a = b) ->
               sorted Z.ltb year true lib = rev (sorted Z.ltb year false lib)).
  { intros H. apply sorted_reverse;
      [apply Z_ltb_asym | apply Z_le_trans | apply Z_ltb_total | exact H]. }
  destruct o; unfold opposite, sorted_library; cbn [sort_key] in Hinj.
  - apply Ht. intros a b Ha Hb E. apply Hinj; congruence.
  - rewrite Ht, rev_involutive; [reflexivity |].
    intros a b Ha Hb E. apply Hinj; congruence.
  - apply Ht. intros a b Ha Hb E. apply Hinj; congruence.
  - rewrite Ht, rev_involutive; [reflexivity |].
    intros a b Ha Hb E. apply Hinj; congruence.
  - rewrite Hz, rev_involutive; [reflexivity |].
    intros a b Ha Hb E. apply Hinj; congruence.
  - apply Hz. intros a b Ha Hb E. apply Hinj; congruence.
Qed.

Lemma opposite_direction_reverses_witness :
  sorted_library Title_ZA [dune; emma] = rev (sorted_library Title_AZ [dune; emma]).
Proof.
  apply (opposite_direction_reverses Title_AZ [dune; emma]).
  intros a b [<- | [<- | []]] [<- | [<- | []]]; vm_compute; congruence.
Defined.

Example ties_are_not_mirrored :
  let first := {| title := str "Dune"; author := str "Herbert"; year := 1965;
                  genre := str "Sci-Fi"; read := true |} in
  let second := {| title := str "DUNE"; author := str "Villeneuve"; year := 2021;
                   genre := str "Film"; read := false |} in
  sorted_library Title_AZ [first; second] = [first; second]
  /\ sorted_library Title_ZA [first; second] = [first; second].
Proof. split; reflexivity. Qed.

(** ** The text of the file *)

Lemma printable_hexdigit d : d < 16 -> printable (hexdigit d) = true.
Proof.
  intros H. unfold printable, hexdigit. destruct (d <? 10) eqn:E.
  - apply N.ltb_lt in E. apply andb_true_iff. split; apply N.leb_le; lia.
  - apply N.ltb_ge in E. apply andb_true_iff. split; apply N.leb_le; lia.
Qed.

Lemma printable_hex4 n : forallb printable (hex4 n) = true.
Proof.
  unfold hex4. cbn [forallb].
  rewrite !printable_hexdigit by (apply N.mod_lt; discriminate). reflexivity.
Qed.

Lemma printable_escape_char c : forallb printable (escape_char c) = true.
Proof.
  unfold escape_char.
  repeat match goal with
         | |- context [if ?c =? ?k then _ else _] =>
             destruct (c =? k); [reflexivity |]
         end.
  destruct ((32 <=? c) && (c <=? 126)) eqn:Hp.
  - cbn [forallb]. unfold printable. rewrite Hp. reflexivity.
  - destruct (c <? 65536).
    + cbn [forallb]. rewrite printable_hex4. reflexivity.
    + cbv zeta. rewrite forallb_app. cbn [forallb].
      rewrite !printable_hex4. reflexivity.
Qed.

Lemma printable_dump_str s : forallb printable (dump_str s) = true.
Proof.
  unfold dump_str. cbn [forallb]. rewrite forallb_app. cbn [forallb andb].
  change (printable 34) with true. cbn [andb]. rewrite andb_true_r.
  induction s as [| c s IH]; [reflexivity |].
  cbn [flat_map]. rewrite forallb_app, printable_escape_char, IH. reflexivity.
Qed.

Lemma printable_uint_text u : forallb printable (uint_text u) = true.
Proof. induction u; cbn [uint_text forallb]; try rewrite IHu; reflexivity. Qed.

Lemma printable_dump_int z : forallb printable (dump_int z) = true.
Proof.
  unfold dump_int. destruct (Z.to_int z); cbn [forallb];
    rewrite printable_uint_text; reflexivity.
Qed.

Lemma printable_join parts :
  List.Forall (fun p => forallb printable p = true) parts ->
  forallb printable (join_comma parts) = true.
Proof.
  induction parts as [| p parts IH]; intros H; [reflexivity |].
  apply List.Forall_cons_iff in H as [Hp H]. specialize (IH H).
  destruct parts as [| q parts]; [exact Hp |].
  change (join_comma (p :: q :: parts))
    with (p ++ 44 :: 32 :: join_comma (q :: parts)).
  rewrite forallb_app, Hp. cbn [forallb]. rewrite IH. reflexivity.
Qed.

Lemma printable_book b : forallb printable (dumps (book_json b)) = true.
Proof.
  unfold book_json. cbn [dumps List.map fst snd forallb].
  rewrite forallb_app. cbn [forallb]. rewrite andb_true_r.
  change (printable 123) with true. cbn [andb].
  apply printable_join.
  repeat (apply List.Forall_cons; [| ]); try apply List.Forall_nil;
    rewrite forallb_app; cbn [forallb]; rewrite printable_dump_str;
    cbn [andb]; first [ apply printable_dump_str | apply printable_dump_int
                      | destruct (read b); reflexivity ].
Qed.

(** X21.  The text that [save_library] writes consists of printable
    ASCII characters only, whatever the titles, authors and genres
    hold: every other character is written as an escape.  So the file
    does not depend on the encoding it is opened with. *)
Theorem saved_file_is_ascii (lib : list Book) (d : disk) :
  writable d = true ->
  exists d' t,
    save_library lib d = Return (d', [])
    /\ file d' = Some t
    /\ forallb printable t = true.
Proof.
  intros Hw. rewrite save_library_writable by exact Hw.
  eexists _, _. split; [reflexivity |]. split; [reflexivity |].
  unfold catalog_json. cbn [dumps forallb].
  rewrite forallb_app. cbn [forallb]. rewrite andb_true_r.
  change (printable 91) with true. cbn [andb].
  apply printable_join. rewrite List.Forall_forall. intros p Hp.
  rewrite List.map_map in Hp. apply List.in_map_iff in Hp as (b & <- & _).
  apply printable_book.
Qed.

Lemma saved_file_is_ascii_witness :
  exists d' t,
    save_library
      [{| title := [26360; 128512]; author := [90; 111; 235]; year := -5;
          genre := []; read := false |}] fresh_disk
    = Return (d', [])
    /\ file d' = Some t
    /\ forallb printable t = true.
Proof.
  exact (saved_file_is_ascii
           [{| title := [26360; 128512]; author := [90; 111; 235]; year := -5;
               genre := []; read := false |}] fresh_disk eq_refl).
Defined.
